(** * VoiceAnalysis: the emotional and the health scoring engines

    A shallow embedding of [analyzers/emotional_analyzer.py] and
    [analyzers/health_analyzer.py].

    Numbers.  A Python [float] is read as a real number: rounding, NaN and
    the infinities are left out, so [np.mean] and [np.std] are the exact mean
    and the exact population standard deviation.  A Python [int] (sample
    rate, frame index, length) is an integer.

    Exceptions.  A computation that may raise has type [option A]; [None]
    stands for a raised exception, whichever it is.

    librosa.  The signal-processing routines of librosa are not part of the
    repository.  They enter as the fields of the record [Librosa]; every
    theorem is stated for an arbitrary value of that record, so that nothing
    is assumed about the routines except where a hypothesis says so. *)

From Stdlib Require Import Reals Lra Lia ZArith List String Bool.
From Stdlib Require Floats.PrimFloat.
Import ListNotations.

Open Scope R_scope.

(* ------------------------------------------------------------------ *)
(** * The exception monad *)

Definition bind {A B : Type} (m : option A) (k : A -> option B) : option B :=
  match m with
  | Some a => k a
  | None => None
  end.

Notation "x <- m ;; k" := (bind m (fun x => k))
  (at level 61, m at next level, right associativity).
Notation "' p <- m ;; k" := (bind m (fun p => k))
  (at level 61, p pattern, m at next level, right associativity).

(** [[f(x) for x in l]] where [f] may raise. *)
Fixpoint mapM {A B : Type} (f : A -> option B) (l : list A) : option (list B) :=
  match l with
  | [] => Some []
  | x :: r => y <- f x ;; ys <- mapM f r ;; Some (y :: ys)
  end.

(* ------------------------------------------------------------------ *)
(** * numpy on one-dimensional arrays *)

Module np.

Fixpoint sum (l : list R) : R :=
  match l with
  | [] => 0
  | x :: r => x + sum r
  end.

(** [np.mean(l)].  On an empty array numpy answers nan; here the quotient
    is [0 * / 0], which is [0]. *)
Definition mean (l : list R) : R := sum l / INR (List.length l).

(** [np.std(l)], the population standard deviation. *)
Definition std (l : list R) : R :=
  sqrt (mean (map (fun x => (x - mean l) * (x - mean l)) l)).

(** [np.diff(l)]: the differences of neighbours, on an array of floats
    and on an array of integers. *)
Fixpoint diff (l : list R) : list R :=
  match l with
  | a :: ((b :: _) as r) => (b - a) :: diff r
  | _ => []
  end.

Fixpoint diff_int (l : list Z) : list Z :=
  match l with
  | a :: ((b :: _) as r) => (b - a)%Z :: diff_int r
  | _ => []
  end.

(** [np.mean(m, axis=0)] on a matrix given by its rows: the mean of every
    column. *)
Definition mean_axis0 (m : list (list R)) : list R :=
  match m with
  | [] => []
  | r :: _ =>
      map (fun j => mean (map (fun row => nth j row 0) m))
          (seq 0 (List.length r))
  end.

(** [np.max(l)]; raises on an empty array. *)
Fixpoint max (l : list R) : option R :=
  match l with
  | [] => None
  | x :: r => match max r with
              | None => Some x
              | Some m => Some (Rmax x m)
              end
  end.

End np.

(** A one- or two-dimensional sample buffer.  In [Arr2] every inner list is
    one row: the samples of all channels at one instant. *)
Inductive ndarray : Type :=
  | Arr1 (samples : list R)
  | Arr2 (rows : list (list R)).

(* ------------------------------------------------------------------ *)
(** * The librosa routines the analyzers call *)

Record Librosa : Type := {
  (** [np.abs(librosa.stft(y))]: one row per frequency bin. *)
  stft_abs : list R -> option (list (list R));
  (** [librosa.feature.rms(S=S)[0]] *)
  rms_of_spectrum : list (list R) -> option (list R);
  (** [librosa.feature.rms(y=y)[0]] *)
  rms : list R -> option (list R);
  (** [librosa.onset.onset_strength(y=y, sr=sr)] *)
  onset_strength : list R -> Z -> option (list R);
  (** [librosa.beat.beat_track(onset_envelope=env, sr=sr)] *)
  beat_track : list R -> Z -> option (R * list Z);
  (** [librosa.piptrack(y=y, sr=sr)]: the bins in row-major order, each with
      its pitch and its magnitude. *)
  piptrack : list R -> Z -> option (list (R * R));
  (** The frames of an onset envelope that pass the local-maximum and the
      moving-average tests of [librosa.util.peak_pick], in increasing
      order; [onset_detect] below thins them out. *)
  peak_candidates : list R -> option (list Z);
  (** [librosa.util.normalize(y)] *)
  normalize : list R -> option (list R);
  (** [librosa.effects.trim(y, top_db=30)[0]] *)
  trim : list R -> option (list R);
  (** [librosa.fft_frequencies(sr=sr)] *)
  fft_frequencies : Z -> list R
}.

(** [librosa.onset.onset_detect(onset_envelope=env, sr=sr, wait=wait)].
    The peak picker walks through the candidate frames in increasing order
    and reports a frame only when it lies more than [wait] frames after the
    frame reported last; [last_onset] is [None] until a frame is reported. *)
Fixpoint wait_filter (wait : Z) (last_onset : option Z) (candidates : list Z)
    : list Z :=
  match candidates with
  | [] => []
  | i :: rest =>
      let far_enough :=
        match last_onset with
        | None => true
        | Some l => (l + wait <? i)%Z
        end in
      if far_enough then i :: wait_filter wait (Some i) rest
      else wait_filter wait last_onset rest
  end.

Definition onset_detect (lib : Librosa) (onset_envelope : list R) (sr wait : Z)
    : option (list Z) :=
  candidates <- peak_candidates lib onset_envelope ;;
  Some (wait_filter wait None candidates).

(** [hop_length] of librosa's frames: frame [n] starts at sample [512 * n]. *)
Definition hop_length : Z := 512.

(* ------------------------------------------------------------------ *)
(** * Python built-ins *)

(** [a / b] on integers; raises [ZeroDivisionError]. *)
Definition py_truediv (a b : Z) : option R :=
  if (b =? 0)%Z then None else Some (IZR a / IZR b).

(** [range(start, stop, step)]; raises [ValueError] on a zero step. *)
Definition py_range (start stop step : Z) : option (list Z) :=
  if (step =? 0)%Z then None
  else
    let n := if (0 <? step)%Z
             then ((stop - start + step - 1) / step)%Z
             else ((start - stop - step - 1) / (- step))%Z in
    Some (map (fun k => (start + Z.of_nat k * step)%Z) (seq 0 (Z.to_nat n))).

(** [l[i:j]] for [0 <= i]. *)
Definition py_slice {A : Type} (l : list A) (i j : Z) : list A :=
  firstn (Z.to_nat (j - i)) (skipn (Z.to_nat i) l).

(** [max(l)] on a list of floats: the first greatest element; raises on an
    empty list. *)
Definition py_max (l : list R) : option R :=
  match l with
  | [] => None
  | x :: r => Some (fold_left (fun m y => if Rgt_dec y m then y else m) r x)
  end.

(* ------------------------------------------------------------------ *)
(** * Python dictionaries with string keys

    Insertion order is kept: [max] over [items()] depends on it. *)

Definition dict : Type := list (string * R).

Definition keys (d : dict) : list string := map fst d.
Definition values (d : dict) : list R := map snd d.

(** [d[k] = v] *)
Fixpoint dict_set (k : string) (v : R) (d : dict) : dict :=
  match d with
  | [] => [(k, v)]
  | (k', v') :: r =>
      if String.eqb k k' then (k', v) :: r else (k', v') :: dict_set k v r
  end.

(** [d[k]]; raises [KeyError] on a missing key. *)
Fixpoint dict_get (k : string) (d : dict) : option R :=
  match d with
  | [] => None
  | (k', v') :: r => if String.eqb k k' then Some v' else dict_get k r
  end.

(** [d[k] += x] *)
Definition dict_add (k : string) (x : R) (d : dict) : option dict :=
  v <- dict_get k d ;; Some (dict_set k (v + x) d).

(** [max(items, key=lambda x: x[1])]: the first item whose value no later
    item exceeds; raises on an empty sequence. *)
Fixpoint max_from (best : string * R) (rest : list (string * R)) : string * R :=
  match rest with
  | [] => best
  | x :: r => if Rgt_dec (snd x) (snd best) then max_from x r else max_from best r
  end.

Definition max_by_value (items : list (string * R)) : option (string * R) :=
  match items with
  | [] => None
  | x :: r => Some (max_from x r)
  end.

(** Python's [sum(values)]: a left fold from [0]. *)
Definition py_sum (l : list R) : R := fold_left Rplus l 0.

Definition gtb (x y : R) : bool := if Rgt_dec x y then true else false.
Definition leb (x y : R) : bool := if Rle_dec x y then true else false.

(* ------------------------------------------------------------------ *)
(** * analyzers/emotional_analyzer.py *)

Module EmotionalAnalyzer.

(** The dictionary [analyze_emotions] returns, one field per key. *)
Record EmotionResult : Type := {
  dominant_emotion : string;
  emotion_probabilities : dict;
  speech_rate : string;
  pitch_variability : string;
  voice_energy : string;
  speech_pauses : string;
  rhythm_stability : string;
  speech_rate_value : R;
  pitch_variability_value : R;
  voice_energy_value : R;
  speech_pauses_value : R;
  rhythm_stability_value : R
}.

(** The five emotions, in the order the dictionaries list them: joy,
    sadness, anger, anxiety, neutral. *)
Definition emotions : list string :=
  ["gioia"; "tristezza"; "rabbia"; "ansia"; "neutrale"]%string.

Definition _get_speech_rate (tempo : R) : string :=
  if Rgt_dec tempo 170 then "fast"
  else if Rlt_dec tempo 130 then "slow"
  else "normal".

Definition _get_pitch_variability (std : R) : string :=
  if Rgt_dec std 50 then "high"
  else if Rgt_dec std 20 then "moderate"
  else "monotone".

Definition _get_energy_level (energy : R) : string :=
  if Rgt_dec energy 0.1 then "high"
  else if Rgt_dec energy 0.05 then "medium"
  else "low".

Definition _get_default_results : EmotionResult := {|
  dominant_emotion := "neutrale";
  emotion_probabilities :=
    [("gioia", 0.2); ("tristezza", 0.2); ("rabbia", 0.2); ("ansia", 0.2);
     ("neutrale", 0.2)]%string;
  speech_rate := "normal";
  pitch_variability := "moderate";
  voice_energy := "medium";
  speech_pauses := "normal";
  rhythm_stability := "stable";
  speech_rate_value := 0.5;
  pitch_variability_value := 0.5;
  voice_energy_value := 0.5;
  speech_pauses_value := 0.5;
  rhythm_stability_value := 0.5
|}.

(** Lines 49-72: the score dictionary and the three additive rules. *)
Definition raw_scores (energy pitch_std tempo : R) : option dict :=
  let emotion_scores : dict :=
    [("gioia", 0); ("tristezza", 0); ("rabbia", 0); ("ansia", 0);
     ("neutrale", 0.2)]%string in
  let emotion_scores :=
    if Rgt_dec energy 0.1 then
      dict_set "rabbia" (energy * 0.5) (dict_set "gioia" energy emotion_scores)
    else
      dict_set "tristezza" (0.1 - energy) emotion_scores in
  emotion_scores <-
    (if Rgt_dec pitch_std 0 then
       d <- dict_add "gioia" (Rmin (pitch_std / 100) 0.3) emotion_scores ;;
       dict_add "ansia" (Rmin (pitch_std / 200) 0.2) d
     else Some emotion_scores) ;;
  if Rgt_dec tempo 120 then
    d <- dict_add "ansia" (Rmin ((tempo - 120) / 100) 0.3) emotion_scores ;;
    dict_add "rabbia" (Rmin ((tempo - 120) / 150) 0.2) d
  else
    dict_add "tristezza" (Rmin ((120 - tempo) / 100) 0.3) emotion_scores.

(** Lines 75-79: normalisation of the scores. *)
Definition normalize_scores (emotion_scores : dict) : dict :=
  let total := py_sum (values emotion_scores) in
  if Rgt_dec total 0 then
    map (fun '(k, v) => (k, v / total)) emotion_scores
  else
    map (fun '(k, _) => (k, 0.2)) emotion_scores.

(** Lines 19-22: the buffer as a one-dimensional array. *)
Definition to_mono (audio_data : ndarray) : list R :=
  match audio_data with
  | Arr1 y => y
  | Arr2 rows => map np.mean rows
  end.

(** The body of the [try] block. *)
Definition analyze_emotions_try (lib : Librosa) (audio_data : ndarray)
    (sr : Z) (text_type : option string) : option EmotionResult :=
  let audio_data := to_mono audio_data in
  if Rlt_dec (INR (List.length audio_data)) (IZR sr * 0.5) then
    Some _get_default_results
  else
    S <- stft_abs lib audio_data ;;
    rms <- rms_of_spectrum lib S ;;
    let energy := np.mean rms in
    onset_env <- onset_strength lib audio_data sr ;;
    '(tempo, _) <- beat_track lib onset_env sr ;;
    bins <- piptrack lib audio_data sr ;;
    top <- np.max (map snd bins) ;;
    let pitch_values :=
      map fst (filter (fun b => gtb (snd b) (top * 0.1)) bins) in
    let '(pitch_mean, pitch_std) :=
      if (0 <? List.length pitch_values)%nat
      then (np.mean pitch_values, np.std pitch_values)
      else (0, 0) in
    emotion_scores <- raw_scores energy pitch_std tempo ;;
    let emotion_scores := normalize_scores emotion_scores in
    let speech_rate := _get_speech_rate tempo in
    let pitch_variability := _get_pitch_variability pitch_std in
    let voice_energy := _get_energy_level energy in
    dominant <- max_by_value emotion_scores ;;
    Some {|
      dominant_emotion := fst dominant;
      emotion_probabilities := emotion_scores;
      speech_rate := speech_rate;
      pitch_variability := pitch_variability;
      voice_energy := voice_energy;
      speech_pauses := "normal";
      rhythm_stability := "stable";
      speech_rate_value := Rmin (tempo / 200) 1;
      pitch_variability_value :=
        if Rgt_dec pitch_std 0 then Rmin (pitch_std / 100) 1 else 0.5;
      voice_energy_value := Rmin (energy * 10) 1;
      speech_pauses_value := 0.5;
      rhythm_stability_value := 0.5
    |}.

(** [try: ... except Exception: return self._get_default_results()] *)
Definition analyze_emotions (lib : Librosa) (audio_data : ndarray)
    (sr : Z) (text_type : option string) : EmotionResult :=
  match analyze_emotions_try lib audio_data sr text_type with
  | Some results => results
  | None => _get_default_results
  end.

End EmotionalAnalyzer.

(* ------------------------------------------------------------------ *)
(** * analyzers/health_analyzer.py *)

Module HealthAnalyzer.

Record Breathing : Type := { rate : R; regularity : R }.
Record VoiceQuality : Type :=
  { quality_score : R; hoarseness : R; strain : R }.
Record Fatigue : Type := { fatigue_score : R; timeline : list R }.
Record SpeechRhythm : Type := { fluency : R; stability : R }.

Record HealthResult : Type := {
  breathing : Breathing;
  voice_quality : VoiceQuality;
  fatigue : Fatigue;
  speech_rhythm : SpeechRhythm
}.

Definition _preprocess_audio (lib : Librosa) (audio_data : list R) (sr : Z)
    : option (list R) :=
  audio_data <- normalize lib audio_data ;;
  trim lib audio_data.

(** Lines 60-64: [1 - std / mean] of the intervals between the events. *)
Definition breathing_regularity_of (breath_events : list Z) (sr : Z) : R :=
  if (1 <? List.length breath_events)%nat then
    let breath_intervals :=
      map (fun d => IZR d / IZR sr) (np.diff_int breath_events) in
    if Rgt_dec (np.mean breath_intervals) 0
    then 1 - np.std breath_intervals / np.mean breath_intervals
    else 0
  else 0.

Definition _analyze_breathing (lib : Librosa) (audio_data : list R) (sr : Z)
    (age_group : string) : option Breathing :=
  onset_env <- onset_strength lib audio_data sr ;;
  breath_events <- onset_detect lib onset_env sr (sr / 2) ;;
  duration <- py_truediv (Z.of_nat (List.length audio_data)) sr ;;
  let breaths_per_minute :=
    if Rgt_dec duration 0
    then IZR (Z.of_nat (List.length breath_events) * 60) / duration
    else 0 in
  let breathing_regularity := breathing_regularity_of breath_events sr in
  Some {| rate := breaths_per_minute; regularity := breathing_regularity |}.

(** [S[mask, :]]: the rows of [S] picked by a boolean mask, which must be
    as long as [S] has rows. *)
Definition select_rows (S : list (list R)) (mask : list bool)
    : option (list (list R)) :=
  if (List.length mask =? List.length S)%nat
  then Some (map fst (filter snd (combine S mask)))
  else None.

Definition _analyze_voice_quality (lib : Librosa) (audio_data : list R)
    (sr : Z) : option VoiceQuality :=
  bins <- piptrack lib audio_data sr ;;
  pitches_valid <-
    (if (0 <? List.length bins)%nat then
       top <- np.max (map snd bins) ;;
       Some (map fst (filter (fun b => gtb (snd b) (top * 0.1)) bins))
     else Some []) ;;
  let jitter :=
    if (1 <? List.length pitches_valid)%nat then
      if Rgt_dec (np.mean pitches_valid) 0
      then np.std (np.diff pitches_valid) / np.mean pitches_valid
      else 0
    else 0 in
  rms <- rms lib audio_data ;;
  let shimmer :=
    if Rgt_dec (np.mean rms) 0 then np.std rms / np.mean rms else 0 in
  S <- stft_abs lib audio_data ;;
  let freqs := fft_frequencies lib sr in
  let freq_mask := map (fun f => leb f 2000) freqs in
  harmonic_rows <- select_rows S freq_mask ;;
  noise_rows <- select_rows S (map negb freq_mask) ;;
  let harmonic_energy := np.mean_axis0 harmonic_rows in
  let noise_energy := np.mean_axis0 noise_rows in
  let hnr :=
    if Rgt_dec (np.mean noise_energy) 0
    then np.mean harmonic_energy / np.mean noise_energy
    else 0 in
  let strain := (jitter + shimmer) / 2 in
  let quality_score := 1 - np.mean [jitter; shimmer; strain] in
  Some {| quality_score := quality_score;
          hoarseness := if Rlt_dec hnr 1 then 1 - hnr else 0;
          strain := strain |}.

(** Lines 114-118: the three-second segments that last a second or more. *)
Definition segments_of (audio_data : list R) (sr : Z)
    : option (list (list R)) :=
  let segment_duration := 3%Z in
  let samples_per_segment := (sr * segment_duration)%Z in
  starts <- py_range 0 (Z.of_nat (List.length audio_data))
                     samples_per_segment ;;
  Some (filter (fun seg => (sr <=? Z.of_nat (List.length seg))%Z)
          (map (fun i => py_slice audio_data i (i + samples_per_segment))
               starts)).

(** Lines 132-138: normalisation of the trend and the score. *)
Definition normalize_trend (energy_trend : list R) : list R :=
  match py_max energy_trend with
  | Some max_energy =>
      map (fun e => if Rgt_dec max_energy 0 then e / max_energy else 0)
          energy_trend
  | None => energy_trend
  end.

Definition fatigue_score_of (energy_trend : list R) : R :=
  match energy_trend with
  | [] => 0
  | first :: _ =>
      if Rgt_dec first 0 then 1 - last energy_trend 0 / first else 0
  end.

Definition _analyze_fatigue (lib : Librosa) (audio_data : list R) (sr : Z)
    : option Fatigue :=
  segments <- segments_of audio_data sr ;;
  match segments with
  | [] => Some {| fatigue_score := 0; timeline := [0] |}
  | _ =>
      energy_trend <-
        mapM (fun segment => rms <- rms lib segment ;; Some (np.mean rms))
             segments ;;
      let energy_trend := normalize_trend energy_trend in
      let fatigue_score := fatigue_score_of energy_trend in
      Some {| fatigue_score := fatigue_score; timeline := energy_trend |}
  end.

Definition _analyze_speech_rhythm (lib : Librosa) (audio_data : list R)
    (sr : Z) : option SpeechRhythm :=
  onset_env <- onset_strength lib audio_data sr ;;
  '(tempo, beats) <- beat_track lib onset_env sr ;;
  let rhythm_regularity :=
    if (1 <? List.length beats)%nat then
      let beat_intervals := map IZR (np.diff_int beats) in
      if Rgt_dec (np.mean beat_intervals) 0
      then 1 - np.std beat_intervals / np.mean beat_intervals
      else 0
    else 0 in
  let fluency := rhythm_regularity in
  let stability :=
    (rhythm_regularity + (1 - Rabs (tempo - 120) / 120)) / 2 in
  Some {| fluency := fluency; stability := stability |}.

(** No [try] here: an exception raised by a step leaves the function. *)
Definition analyze_health (lib : Librosa) (audio_data : list R) (sr : Z)
    (age_group : string) : option HealthResult :=
  audio_data <- _preprocess_audio lib audio_data sr ;;
  breathing <- _analyze_breathing lib audio_data sr age_group ;;
  voice_quality <- _analyze_voice_quality lib audio_data sr ;;
  fatigue <- _analyze_fatigue lib audio_data sr ;;
  speech_rhythm <- _analyze_speech_rhythm lib audio_data sr ;;
  Some {| breathing := breathing; voice_quality := voice_quality;
          fatigue := fatigue; speech_rhythm := speech_rhythm |}.

End HealthAnalyzer.

(* ------------------------------------------------------------------ *)
(** * A small instance of the librosa record

    Used to run the analyzers on concrete clips.  [librosa_normalize]
    follows [librosa.util.normalize]: it takes the greatest magnitude (numpy
    raises on an empty array) and divides by it unless it is zero.  The other
    fields are kept as simple as possible: one RMS frame per sample, a fixed
    spectrum of two bins, a fixed pitch track, and the candidate frames and
    the tempo given as parameters. *)

Definition librosa_normalize (y : list R) : option (list R) :=
  top <- np.max (map Rabs y) ;;
  Some (if Rgt_dec top 0 then map (fun x => x / top) y else y).

Definition stub_librosa (candidates : list Z) (tempo : R) : Librosa := {|
  stft_abs := fun _ => Some [[1]; [1]];
  rms_of_spectrum := fun _ => Some [0.2];
  rms := fun y => Some (map Rabs y);
  onset_strength := fun _ _ => Some [0];
  beat_track := fun _ _ => Some (tempo, []);
  piptrack := fun _ _ => Some [(100, 1); (140, 1); (500, 0.05)];
  peak_candidates := fun _ => Some candidates;
  normalize := librosa_normalize;
  trim := fun y => Some y;
  fft_frequencies := fun _ => [0; 4000]
|}.

(** The librosa calls made by [analyze_health] on a clip all return: the
    preprocessing yields [y], and on [y] (and on its segments, for [rms])
    no routine raises; the spectrum has one row per frequency of
    [fft_frequencies]. *)
Definition librosa_calls_return (lib : Librosa) (audio_data : list R) (sr : Z)
    : Prop :=
  exists y env S,
    HealthAnalyzer._preprocess_audio lib audio_data sr = Some y /\
    onset_strength lib y sr = Some env /\
    peak_candidates lib env <> None /\
    beat_track lib env sr <> None /\
    piptrack lib y sr <> None /\
    (forall segment, rms lib segment <> None) /\
    stft_abs lib y = Some S /\
    List.length (fft_frequencies lib sr) = List.length S.

(** Six breathing events at 16 kHz: four intervals of 8001 frames, then
    one of 58001 frames. *)
Definition uneven_events : list Z := [0; 8001; 16002; 24003; 32004; 90005]%Z.

(* ------------------------------------------------------------------ *)
(** * The strain and the quality score in double precision

    Lines 100-103 of [_analyze_voice_quality] as they are computed when
    jitter and shimmer are numpy doubles: every operation rounds to the
    nearest double.  [np.mean] of three values adds the last two to the
    first and divides by 3. *)

Module Float64.

Import PrimFloat.
Local Open Scope float_scope.

Definition strain (jitter shimmer : float) : float := (jitter + shimmer) / 2.

Definition quality_score (jitter shimmer : float) : float :=
  let strain := strain jitter shimmer in
  1 - (jitter + (shimmer + strain)) / 3.

Definition zero : float := 0.
Definition one : float := 1.

(** The doubles nearest to 0.8 and to 0.4. *)
Definition shimmer_0_8 : float := 0x1.999999999999ap-1.
Definition strain_0_4 : float := 0x1.999999999999ap-2.

End Float64.

(* ------------------------------------------------------------------ *)
(** * A second instance of the librosa record: a steady beat

    Like [stub_librosa], with the beat frames given and a normalisation
    that leaves the clip as it is. *)

Definition steady_librosa (tempo : R) (beats : list Z) : Librosa := {|
  stft_abs := fun _ => Some [[1]; [1]];
  rms_of_spectrum := fun _ => Some [0.2];
  rms := fun y => Some (map Rabs y);
  onset_strength := fun _ _ => Some [0];
  beat_track := fun _ _ => Some (tempo, beats);
  piptrack := fun _ _ => Some [(100, 1)];
  peak_candidates := fun _ => Some [];
  normalize := fun y => Some y;
  trim := fun y => Some y;
  fft_frequencies := fun _ => [0; 4000]
|}.

(* ------------------------------------------------------------------ *)
(** * More Python built-ins *)

(** [d.get(k, default)] *)
Fixpoint get {V : Type} (d : list (string * V)) (k : string) (default : V) : V :=
  match d with
  | [] => default
  | (k', v) :: r => if String.eqb k k' then v else get r k default
  end.

(** [d[k]] on any dictionary with string keys; raises [KeyError]. *)
Fixpoint lookup {V : Type} (d : list (string * V)) (k : string) : option V :=
  match d with
  | [] => None
  | (k', v) :: r => if String.eqb k k' then Some v else lookup r k
  end.

(** [a / b] on floats; raises [ZeroDivisionError]. *)
Definition py_fdiv (a b : R) : option R :=
  if Req_dec_T b 0 then None else Some (a / b).

Definition geb (x y : R) : bool := if Rge_dec x y then true else false.
Definition ltb (x y : R) : bool := if Rlt_dec x y then true else false.

(* ------------------------------------------------------------------ *)
(** * The dictionaries the analyzers hand to the visualizer

    The analyzers return nested dictionaries; the records above hold their
    values.  Where the visualizer looks a key up with [get], the dictionary
    itself is needed: these are the literals of health_analyzer.py, lines
    66-69 and 105-109. *)

Definition breathing_items (b : HealthAnalyzer.Breathing) : dict :=
  [("rate", HealthAnalyzer.rate b);
   ("regularity", HealthAnalyzer.regularity b)]%string.

Definition voice_quality_items (q : HealthAnalyzer.VoiceQuality) : dict :=
  [("quality_score", HealthAnalyzer.quality_score q);
   ("hoarseness", HealthAnalyzer.hoarseness q);
   ("strain", HealthAnalyzer.strain q)]%string.

(* ------------------------------------------------------------------ *)
(** * visualizers/results_visualizer.py *)

Module ResultsVisualizer.

Local Open Scope string_scope.

Definition emotion_colors : list (string * string) :=
  [("gioia", "#FFD700"); ("tristezza", "#4169E1"); ("rabbia", "#FF4500");
   ("ansia", "#9932CC"); ("neutrale", "#90EE90"); ("depressione", "#483D8B");
   ("eccitazione", "#FF69B4")]%string.

Definition health_colors : list (string * string) :=
  [("healthy", "#90EE90"); ("mild_concern", "#FFD700");
   ("moderate_concern", "#FFA500"); ("severe_concern", "#FF4500")]%string.

(** Lines 36-47 of [visualize_emotional_analysis]: the five values of the
    radar chart, each divided by the greatest, and the first one repeated
    at the end to close the polygon. *)
Definition radar_values (results : EmotionalAnalyzer.EmotionResult)
    : option (list R) :=
  let values :=
    [EmotionalAnalyzer.speech_rate_value results;
     EmotionalAnalyzer.pitch_variability_value results;
     EmotionalAnalyzer.voice_energy_value results;
     EmotionalAnalyzer.speech_pauses_value results;
     EmotionalAnalyzer.rhythm_stability_value results] in
  values <- mapM (fun v => m <- py_max values ;; py_fdiv v m) values ;;
  first <- nth_error values 0 ;;
  Some (values ++ [first])%list.

(** Lines 64-65: the colour of each bar. *)
Definition bar_colors (results : EmotionalAnalyzer.EmotionResult)
    : list string :=
  map (fun emotion => get emotion_colors emotion "#808080"%string)
      (keys (EmotionalAnalyzer.emotion_probabilities results)).

Definition _get_health_color (value : R) : option string :=
  if Rge_dec value 0.8 then lookup health_colors "healthy"
  else if Rge_dec value 0.6 then lookup health_colors "mild_concern"
  else if Rge_dec value 0.4 then lookup health_colors "moderate_concern"
  else lookup health_colors "severe_concern".

(** Lines 136-137 of [_create_gauge_chart]: the colour of the needle. *)
Definition gauge_color (value min_val max_val : R) : option string :=
  normalized_value <- py_fdiv (value - min_val) (max_val - min_val) ;;
  _get_health_color normalized_value.

Definition _interpret_breathing_rate (rate : R) : string :=
  if Rlt_dec rate 12 then "sotto la norma, possibile bradipnea"
  else if Rle_dec rate 20 then "nella norma"
  else "elevata, possibile tachipnea".

Definition _interpret_breathing_regularity (irregularity : R) : string :=
  if Rlt_dec irregularity 0.2 then "respiro molto regolare"
  else if Rlt_dec irregularity 0.4 then "respiro moderatamente regolare"
  else "respiro irregolare".

Definition _interpret_voice_quality (quality : dict) : string :=
  let quality_score := get quality "quality_score" 0 in
  let hoarseness := get quality "hoarseness" 0 in
  let strain := get quality "strain" 0 in
  let issues : list string := [] in
  let issues :=
    if Rlt_dec quality_score 0.5
    then (issues ++ ["qualità vocale compromessa"])%list else issues in
  let issues :=
    if Rgt_dec hoarseness 0.3
    then (issues ++ ["presenza di raucedine"])%list else issues in
  let issues :=
    if Rgt_dec strain 0.4
    then (issues ++ ["significativo sforzo vocale"])%list else issues in
  match issues with
  | [] => "Qualità vocale nella norma"
  | _ => "Rilevate le seguenti problematiche: " ++ String.concat ", " issues
  end.

(** Both keys of the fatigue dictionary are present in every record. *)
Definition _interpret_fatigue (fatigue : HealthAnalyzer.Fatigue) : string :=
  let fatigue_score := HealthAnalyzer.fatigue_score fatigue in
  let energy_trend := HealthAnalyzer.timeline fatigue in
  let base_msg : string :=
    if Rlt_dec fatigue_score 0.3 then "Livello di fatica contenuto"
    else if Rlt_dec fatigue_score 0.6 then "Moderati segni di affaticamento"
    else "Significativi segni di affaticamento" in
  let trend_msg : string :=
    if (1 <? List.length energy_trend)%nat then
      let trend_diff := last energy_trend 0 - hd 0 energy_trend in
      if Rlt_dec trend_diff (-0.2) then ", con progressivo calo dell'energia"
      else if Rgt_dec trend_diff 0.2 then ", con recupero di energia nel tempo"
      else ", con livelli di energia stabili"
    else "" in
  (base_msg ++ trend_msg)%string.

Definition _interpret_pauses (pauses : string) : string :=
  get [("frequent", "mostra una tendenza a pause frequenti");
       ("normal", "presenta una distribuzione naturale delle pause");
       ("rare", "mostra poche pause, possibile segnale di ansia o urgenza")]%string
      pauses "presenta un pattern di pause non definito"%string.

Definition _interpret_speech_rate (rate : string) : string :=
  get [("slow", "riflessione o stanchezza");
       ("normal", "tranquillità e controllo");
       ("fast", "eccitazione o agitazione")]%string
      rate "stato non definito"%string.

Definition _interpret_pitch_variability (var : string) : string :=
  get [("monotone", "possibile distacco emotivo o affaticamento");
       ("moderate", "un buon equilibrio emotivo");
       ("high", "forte coinvolgimento emotivo")]%string
      var "variabilità non definita"%string.

Definition _interpret_voice_energy (energy : string) : string :=
  get [("low", "indica possibile stanchezza o tristezza");
       ("medium", "mostra un livello di energia equilibrato");
       ("high", "suggerisce forte intensità emotiva")]%string
      energy "energia non definita"%string.

(** Line 240 of [_generate_emotional_report]:
    [results['emotion_probabilities'][dominant_emotion]]. *)
Definition confidence (results : EmotionalAnalyzer.EmotionResult) : option R :=
  lookup (EmotionalAnalyzer.emotion_probabilities results)
         (EmotionalAnalyzer.dominant_emotion results).

(** Line 274 of [_generate_health_report]: the regularity is read under
    the key [irregularity]. *)
Definition regularity_line (results : HealthAnalyzer.HealthResult) : string :=
  let breathing := breathing_items (HealthAnalyzer.breathing results) in
  _interpret_breathing_regularity (get breathing "irregularity" 0).

(** The list [recommendations] before it is joined with newlines. *)
Definition _generate_health_recommendations
    (results : HealthAnalyzer.HealthResult) : list string :=
  let recommendations : list string := [] in
  let recommendations :=
    if Rgt_dec (HealthAnalyzer.rate (HealthAnalyzer.breathing results)) 20
    then (recommendations ++
          ["- Pratica esercizi di respirazione diaframmatica"])%list
    else recommendations in
  let recommendations :=
    if Rgt_dec (get (voice_quality_items (HealthAnalyzer.voice_quality results))
                    "hoarseness" 0) 0.3
    then (recommendations ++
          ["- Riposa la voce e mantieni una buona idratazione"])%list
    else recommendations in
  let recommendations :=
    if Rgt_dec (HealthAnalyzer.fatigue_score (HealthAnalyzer.fatigue results)) 0.3
    then (recommendations ++
          ["- Considera di fare più pause durante il parlato"])%list
    else recommendations in
  match recommendations with
  | [] => ["- Mantieni le tue buone abitudini vocali"%string]
  | _ => recommendations
  end.

(** Line 125 of [visualize_health_analysis]: the value of the energy gauge. *)
Definition energy_level (results : HealthAnalyzer.HealthResult) : R :=
  match HealthAnalyzer.timeline (HealthAnalyzer.fatigue results) with
  | [] => 0.5
  | timeline => last timeline 0
  end.

End ResultsVisualizer.

(* ------------------------------------------------------------------ *)
(** * app.py *)

Module App.

(** What pydub decodes from the bytes of a WAV file: the number of
    channels, the width of a sample in bytes and the interleaved samples. *)
Record AudioSegment : Type := {
  channels : Z;
  sample_width : Z;
  get_array_of_samples : list Z
}.

(** [samples.reshape((-1, 2))] followed by [np.mean(samples, axis=1)];
    the reshape raises on an odd number of samples. *)
Fixpoint mean_of_pairs (samples : list R) : option (list R) :=
  match samples with
  | [] => Some []
  | [_] => None
  | a :: b :: r => rest <- mean_of_pairs r ;; Some (np.mean [a; b] :: rest)
  end.

(** [from_wav] stands for [AudioSegment.from_wav(io.BytesIO(audio_bytes))];
    the [except] clause raises the exception again.  [float32] stands for
    the rounding of [samples.astype(np.float32)]. *)
Definition convert_audio_to_numpy {Bytes : Type}
    (from_wav : Bytes -> option AudioSegment) (float32 : R -> R)
    (audio_bytes : Bytes) : option (list R) :=
  audio <- from_wav audio_bytes ;;
  let channels := channels audio in
  let sample_width := sample_width audio in
  let samples := map IZR (get_array_of_samples audio) in
  samples <- (if (channels =? 2)%Z then mean_of_pairs samples
              else Some samples) ;;
  let samples :=
    if (sample_width =? 1)%Z then map (fun s => s / IZR (2 ^ 7)) samples
    else if (sample_width =? 2)%Z then map (fun s => s / IZR (2 ^ 15)) samples
    else if (sample_width =? 4)%Z then map (fun s => s / IZR (2 ^ 31)) samples
    else samples in
  let samples := map float32 samples in
  Some samples.

(** Lines 106-114 of [main]: whether the warning about a short recording
    is shown, and the result handed to the visualizer. *)
Definition emotional_analysis (lib : Librosa) (audio_data : list R)
    (text_type : option string) : bool * EmotionalAnalyzer.EmotionResult :=
  let warning := (Z.of_nat (List.length audio_data) <? 8000)%Z in
  (warning,
   EmotionalAnalyzer.analyze_emotions lib (Arr1 audio_data) 16000 text_type).

End App.

(* ------------------------------------------------------------------ *)
(** * Facts about the Python and numpy helpers *)

Ltac split_rmin :=
  unfold Rmin;
  repeat match goal with
         | |- context [Rle_dec ?a ?b] => destruct (Rle_dec a b)
         end.

Lemma py_sum_acc (l : list R) (a : R) : fold_left Rplus l a = a + np.sum l.
Proof.
  revert a; induction l as [|x l IH]; intros a; simpl.
  - lra.
  - rewrite IH. lra.
Qed.

Lemma py_sum_np_sum (l : list R) : py_sum l = np.sum l.
Proof. unfold py_sum. rewrite py_sum_acc. lra. Qed.

(** [max_from] keeps the first item of greatest value: a loop invariant
    over the items already seen ([seen]) and those still to come. *)
Lemma max_from_invariant (rest seen : list (string * R)) (best : string * R)
    (i : nat) :
  nth_error seen i = Some best ->
  (forall x, In x seen -> snd x <= snd best) ->
  (forall j x, (j < i)%nat -> nth_error seen j = Some x -> snd x < snd best) ->
  exists i',
    nth_error (seen ++ rest) i' = Some (max_from best rest) /\
    (forall x, In x (seen ++ rest) -> snd x <= snd (max_from best rest)) /\
    (forall j x, (j < i')%nat -> nth_error (seen ++ rest) j = Some x ->
                 snd x < snd (max_from best rest)).
Proof.
  revert seen best i.
  induction rest as [|x rest IH]; intros seen best i Hi Hle Hlt.
  - exists i. rewrite app_nil_r. simpl. auto.
  - simpl. replace (seen ++ x :: rest) with ((seen ++ [x]) ++ rest)
      by (rewrite <- app_assoc; reflexivity).
    destruct (Rgt_dec (snd x) (snd best)) as [Hgt | Hngt].
    + apply (IH (seen ++ [x]) x (List.length seen)).
      * rewrite nth_error_app2 by lia. rewrite Nat.sub_diag. reflexivity.
      * intros y Hy. apply in_app_or in Hy. destruct Hy as [Hy | [<- | []]].
        -- specialize (Hle y Hy). lra.
        -- lra.
      * intros j y Hj Hy. rewrite nth_error_app1 in Hy by exact Hj.
        apply nth_error_In in Hy. specialize (Hle y Hy). lra.
    + assert (Hi' : (i < List.length seen)%nat)
        by (apply nth_error_Some; rewrite Hi; discriminate).
      apply (IH (seen ++ [x]) best i).
      * rewrite nth_error_app1 by exact Hi'. exact Hi.
      * intros y Hy. apply in_app_or in Hy. destruct Hy as [Hy | [<- | []]].
        -- apply Hle, Hy.
        -- lra.
      * intros j y Hj Hy. rewrite nth_error_app1 in Hy by lia.
        apply (Hlt j y Hj Hy).
Qed.

Lemma max_by_value_first_greatest (items : list (string * R)) (m : string * R) :
  max_by_value items = Some m ->
  exists i,
    nth_error items i = Some m /\
    (forall x, In x items -> snd x <= snd m) /\
    (forall j x, (j < i)%nat -> nth_error items j = Some x -> snd x < snd m).
Proof.
  destruct items as [|x rest]; simpl; [discriminate|].
  intros [= <-].
  apply (max_from_invariant rest [x] x 0).
  - reflexivity.
  - intros y [<- | []]. lra.
  - intros j y Hj. lia.
Qed.

(* ------------------------------------------------------------------ *)
(** * The emotional engine *)

Import EmotionalAnalyzer.

(** The shape of the raw scores: the five keys in their order, four
    non-negative scores and the seed of the neutral one. *)
Lemma raw_scores_shape (energy pitch_std tempo : R) :
  exists j s a x,
    raw_scores energy pitch_std tempo =
      Some [("gioia", j); ("tristezza", s); ("rabbia", a); ("ansia", x);
            ("neutrale", 0.2)]%string /\
    0 <= j /\ 0 <= s /\ 0 <= a /\ 0 <= x.
Proof.
  unfold raw_scores.
  destruct (Rgt_dec energy 0.1), (Rgt_dec pitch_std 0), (Rgt_dec tempo 120);
    cbn; do 4 eexists; (split; [reflexivity|]); split_rmin;
    repeat split; lra.
Qed.

Lemma normalize_scores_keys (scores : dict) :
  keys (normalize_scores scores) = keys scores.
Proof.
  unfold normalize_scores, keys.
  destruct (Rgt_dec _ 0); rewrite map_map; apply map_ext; intros [k v];
    reflexivity.
Qed.

Lemma sum_scaled (l : dict) (t : R) :
  np.sum (values (map (fun '(k, v) => (k, v / t)) l)) = np.sum (values l) / t.
Proof.
  unfold values.
  induction l as [|[k v] l IH]; simpl.
  - unfold Rdiv. lra.
  - rewrite IH. unfold Rdiv. lra.
Qed.

Lemma normalize_scores_spec (scores : dict) :
  (py_sum (values scores) > 0 ->
   normalize_scores scores =
     map (fun '(k, v) => (k, v / py_sum (values scores))) scores /\
   py_sum (values (normalize_scores scores)) = 1) /\
  (py_sum (values scores) <= 0 ->
   Forall (fun v => v = 0.2) (values (normalize_scores scores))).
Proof.
  unfold normalize_scores. split; intros H.
  - destruct (Rgt_dec _ 0) as [_ | Hn]; [|lra]. split; [reflexivity|].
    rewrite (py_sum_np_sum (values (map _ _))), sum_scaled.
    rewrite <- py_sum_np_sum. field. lra.
  - destruct (Rgt_dec _ 0) as [Hp | _]; [lra|].
    unfold values. rewrite map_map. apply Forall_forall. intros v Hv.
    apply in_map_iff in Hv. destruct Hv as [[k w] [<- _]]. reflexivity.
Qed.

Lemma analyze_emotions_try_cases (lib : Librosa) (audio_data : ndarray)
    (sr : Z) (text_type : option string) (r : EmotionResult) :
  analyze_emotions_try lib audio_data sr text_type = Some r ->
  (INR (List.length (to_mono audio_data)) < IZR sr * 0.5 /\
   r = _get_default_results) \/
  (~ INR (List.length (to_mono audio_data)) < IZR sr * 0.5 /\
   exists energy pitch_std tempo raw dominant,
     raw_scores energy pitch_std tempo = Some raw /\
     emotion_probabilities r = normalize_scores raw /\
     max_by_value (normalize_scores raw) = Some dominant /\
     dominant_emotion r = fst dominant).
Proof.
  unfold analyze_emotions_try.
  destruct (Rlt_dec _ _) as [Hshort | Hlong].
  - intros [= <-]. left. split; [exact Hshort | reflexivity].
  - intros H. right. split; [exact Hlong|].
    destruct (stft_abs lib _) as [S|]; cbn [bind] in H; [|discriminate].
    destruct (rms_of_spectrum lib S) as [rms|]; cbn [bind] in H;
      [|discriminate].
    destruct (onset_strength lib _ sr) as [env|]; cbn [bind] in H;
      [|discriminate].
    destruct (beat_track lib env sr) as [[tempo beats]|]; cbn [bind] in H;
      [|discriminate].
    destruct (piptrack lib _ sr) as [bins|]; cbn [bind] in H; [|discriminate].
    destruct (np.max (map snd bins)) as [top|]; cbn [bind] in H;
      [|discriminate].
    destruct (0 <? _)%nat;
      match type of H with
      | context [raw_scores ?e ?p ?t] =>
          destruct (raw_scores e p t) as [raw|] eqn:Hraw; [|discriminate];
          cbn [bind] in H;
          destruct (max_by_value (normalize_scores raw)) as [dominant|] eqn:Hmax;
            [|discriminate];
          cbn [bind] in H; injection H as <-;
          exists e, p, t, raw, dominant; auto
      end.
Qed.

Lemma np_max_some (l : list R) : l <> [] -> exists m, np.max l = Some m.
Proof.
  destruct l as [|x l]; [congruence|]. intros _. simpl.
  destruct (np.max l); eauto.
Qed.

(** The [try] block runs to its end when the clip is long enough and every
    librosa call returns, the pitch track having at least one bin. *)
Lemma analyze_emotions_try_returns (lib : Librosa) (audio_data : ndarray)
    (sr : Z) (text_type : option string) S rms env tb bins :
  ~ INR (List.length (to_mono audio_data)) < IZR sr * 0.5 ->
  stft_abs lib (to_mono audio_data) = Some S ->
  rms_of_spectrum lib S = Some rms ->
  onset_strength lib (to_mono audio_data) sr = Some env ->
  beat_track lib env sr = Some tb ->
  piptrack lib (to_mono audio_data) sr = Some bins ->
  bins <> [] ->
  exists r, analyze_emotions_try lib audio_data sr text_type = Some r.
Proof.
  intros Hlong HS Hrms Henv Htb Hbins Hne.
  unfold analyze_emotions_try.
  destruct (Rlt_dec _ _) as [Hshort | _]; [contradiction|].
  rewrite HS; cbn [bind]. rewrite Hrms; cbn [bind].
  rewrite Henv; cbn [bind]. rewrite Htb; cbn [bind]. destruct tb as [tempo beats].
  rewrite Hbins; cbn [bind].
  destruct (np_max_some (map snd bins)) as [top ->].
  { destruct bins; [congruence | discriminate]. }
  cbn [bind].
  destruct (0 <? _)%nat;
    match goal with
    | |- context [raw_scores ?e ?p ?t] =>
        destruct (raw_scores_shape e p t) as (j & s & a & x & -> & _)
    end;
    cbn [bind]; unfold normalize_scores; destruct (Rgt_dec _ 0);
    cbn [map max_by_value bind]; eauto.
Qed.

(** C1.  Whatever the clip, the probabilities returned by
    [analyze_emotions] are keyed by the five emotions (gioia, tristezza,
    rabbia, ansia, neutrale: joy, sadness, anger, anxiety, neutral), in that
    order and with no other key, and they sum to one.  This covers the three
    ways out of the function: the probabilities are either those of the
    default result (short clip, or an exception caught), all equal to 0.2,
    or the normalised raw scores.  The normalisation itself yields values of
    sum one when the total of the scores is positive and 0.2 everywhere
    when it is not. *)
Theorem emotion_probabilities_five_keys_sum_one (lib : Librosa)
    (audio_data : ndarray) (sr : Z) (text_type : option string) :
  let p := emotion_probabilities
             (analyze_emotions lib audio_data sr text_type) in
  keys p = emotions /\
  py_sum (values p) = 1 /\
  (Forall (fun v => v = 0.2) (values p) \/
   exists energy pitch_std tempo raw,
     raw_scores energy pitch_std tempo = Some raw /\
     p = normalize_scores raw) /\
  (forall scores : dict,
     (py_sum (values scores) > 0 ->
      py_sum (values (normalize_scores scores)) = 1) /\
     (py_sum (values scores) <= 0 ->
      Forall (fun v => v = 0.2) (values (normalize_scores scores)))).
Proof.
  assert (Hdefault :
    let p := emotion_probabilities _get_default_results in
    keys p = emotions /\ py_sum (values p) = 1 /\
    Forall (fun v => v = 0.2) (values p)).
  { cbn. split; [reflexivity|]. split.
    - unfold py_sum. simpl. lra.
    - repeat (apply Forall_cons; [reflexivity|]). apply Forall_nil. }
  cbv zeta in *. destruct Hdefault as (Dk & Ds & Dv).
  split; [|split; [|split]].
  4: { intros scores. destruct (normalize_scores_spec scores) as [Hp Hn].
       split; [intros H; apply Hp, H | exact Hn]. }
  all: unfold analyze_emotions;
    destruct (analyze_emotions_try lib audio_data sr text_type) as [r|] eqn:E;
    [apply analyze_emotions_try_cases in E;
     destruct E as [[_ ->] | [_ (e & ps & t & raw & dom & Hraw & -> & _)]]
    | ]; auto.
  - rewrite normalize_scores_keys.
    destruct (raw_scores_shape e ps t) as (j & s & a & x & Hshape & _).
    rewrite Hshape in Hraw. injection Hraw as <-. reflexivity.
  - destruct (raw_scores_shape e ps t) as (j & s & a & x & Hshape & Hj & Hs & Ha & Hx).
    rewrite Hshape in Hraw. injection Hraw as <-.
    apply normalize_scores_spec. unfold py_sum. simpl. lra.
  - right. exists e, ps, t, raw. auto.
Qed.

(** C8.  For every energy, pitch deviation and tempo the three rules leave
    five non-negative scores, the neutral one still at its seed 0.2, so the
    total is at least 0.2; the normalisation therefore always divides by the
    total and never takes the uniform branch. *)
Theorem raw_scores_total_at_least_seed (energy pitch_std tempo : R) :
  exists raw,
    raw_scores energy pitch_std tempo = Some raw /\
    keys raw = emotions /\
    Forall (fun v => 0 <= v) (values raw) /\
    dict_get "neutrale" raw = Some 0.2 /\
    0.2 <= py_sum (values raw) /\
    normalize_scores raw =
      map (fun '(k, v) => (k, v / py_sum (values raw))) raw.
Proof.
  destruct (raw_scores_shape energy pitch_std tempo)
    as (j & s & a & x & Hshape & Hj & Hs & Ha & Hx).
  eexists. split; [exact Hshape|].
  assert (Htotal : 0.2 <= py_sum (values
            [("gioia", j); ("tristezza", s); ("rabbia", a); ("ansia", x);
             ("neutrale", 0.2)]%string)).
  { unfold py_sum. simpl. lra. }
  split; [reflexivity|]. split.
  { cbn. repeat (apply Forall_cons; [lra|]). apply Forall_nil. }
  split; [reflexivity|]. split; [exact Htotal|].
  apply normalize_scores_spec. lra.
Qed.

(** C7.  When the [try] block runs past the length check, the dominant
    emotion is a key of greatest probability, and every key listed before
    it (in the order gioia, tristezza, rabbia, ansia, neutrale) has a
    strictly smaller probability: ties go to the first key. *)
Theorem dominant_emotion_first_argmax (lib : Librosa) (audio_data : ndarray)
    (sr : Z) (text_type : option string) (r : EmotionResult) :
  analyze_emotions_try lib audio_data sr text_type = Some r ->
  ~ INR (List.length (to_mono audio_data)) < IZR sr * 0.5 ->
  keys (emotion_probabilities r) = emotions /\
  exists i v,
    nth_error (emotion_probabilities r) i = Some (dominant_emotion r, v) /\
    (forall k w, In (k, w) (emotion_probabilities r) -> w <= v) /\
    (forall j k w, (j < i)%nat ->
       nth_error (emotion_probabilities r) j = Some (k, w) -> w < v).
Proof.
  intros E Hlong.
  apply analyze_emotions_try_cases in E.
  destruct E as [[Hshort _] | [_ (e & ps & t & raw & dom & Hraw & Hp & Hmax & Hd)]];
    [contradiction|].
  split.
  - rewrite Hp, normalize_scores_keys.
    destruct (raw_scores_shape e ps t) as (j & s & a & x & Hshape & _).
    rewrite Hshape in Hraw. injection Hraw as <-. reflexivity.
  - apply max_by_value_first_greatest in Hmax.
    destruct Hmax as (i & Hi & Hle & Hlt).
    rewrite Hp, Hd. exists i, (snd dom). split; [|split].
    + rewrite Hi. destruct dom; reflexivity.
    + intros k w Hin. apply (Hle (k, w) Hin).
    + intros j k w Hj Hnth. apply (Hlt j (k, w) Hj Hnth).
Qed.

(** C2.  A clip with fewer samples than half the sample rate leaves the
    function at the length check, before any librosa call, with the default
    result: neutrale dominant, 0.2 for each emotion, the buckets normal,
    moderate, medium, normal, stable, and 0.5 in the five [_value] fields. *)
Theorem short_clip_default_result (lib : Librosa) (audio_data : ndarray)
    (sr : Z) (text_type : option string) :
  INR (List.length (to_mono audio_data)) < IZR sr * 0.5 ->
  analyze_emotions_try lib audio_data sr text_type = Some _get_default_results /\
  analyze_emotions lib audio_data sr text_type =
    {| dominant_emotion := "neutrale";
       emotion_probabilities :=
         [("gioia", 0.2); ("tristezza", 0.2); ("rabbia", 0.2); ("ansia", 0.2);
          ("neutrale", 0.2)]%string;
       speech_rate := "normal";
       pitch_variability := "moderate";
       voice_energy := "medium";
       speech_pauses := "normal";
       rhythm_stability := "stable";
       speech_rate_value := 0.5;
       pitch_variability_value := 0.5;
       voice_energy_value := 0.5;
       speech_pauses_value := 0.5;
       rhythm_stability_value := 0.5 |}.
Proof.
  intros Hshort.
  assert (E : analyze_emotions_try lib audio_data sr text_type =
              Some _get_default_results).
  { unfold analyze_emotions_try.
    destruct (Rlt_dec _ _) as [_ | Hlong]; [reflexivity | contradiction]. }
  split; [exact E|]. unfold analyze_emotions. rewrite E. reflexivity.
Qed.

(** C10.  A two-dimensional buffer is averaged row by row (over the
    channels of each instant) before anything else: its sample count is its
    number of rows, and the result is the one obtained on the
    one-dimensional buffer of these averages.  For a stereo buffer that is
    the buffer of the half-sums of the two channels. *)
Theorem two_dimensional_buffer_downmixed (lib : Librosa)
    (rows : list (list R)) (sr : Z) (text_type : option string) :
  to_mono (Arr2 rows) = map np.mean rows /\
  List.length (to_mono (Arr2 rows)) = List.length rows /\
  analyze_emotions lib (Arr2 rows) sr text_type =
    analyze_emotions lib (Arr1 (map np.mean rows)) sr text_type /\
  (forall left right : list R,
     analyze_emotions lib
       (Arr2 (map (fun '(a, b) => [a; b]) (combine left right))) sr text_type =
     analyze_emotions lib
       (Arr1 (map (fun '(a, b) => (a + b) / 2) (combine left right)))
       sr text_type).
Proof.
  split; [reflexivity|]. split; [apply length_map|]. split; [reflexivity|].
  intros left right. unfold analyze_emotions, analyze_emotions_try.
  cbn [to_mono]. rewrite map_map.
  rewrite (map_ext (fun x => np.mean (let '(a, b) := x in [a; b]))
                   (fun '(a, b) => (a + b) / 2)).
  - reflexivity.
  - intros [a b]. unfold np.mean. simpl. field.
Qed.

Lemma gtb_true (x y : R) : x > y -> gtb x y = true.
Proof. intros H. unfold gtb. destruct (Rgt_dec x y); [reflexivity | lra]. Qed.

Lemma gtb_false (x y : R) : x <= y -> gtb x y = false.
Proof. intros H. unfold gtb. destruct (Rgt_dec x y); [lra | reflexivity]. Qed.

Lemma std_of_square (l : list R) (d : R) :
  0 <= d ->
  np.mean (map (fun x => (x - np.mean l) * (x - np.mean l)) l) = d * d ->
  np.std l = d.
Proof.
  intros Hd H. unfold np.std. rewrite H. apply sqrt_square, Hd.
Qed.

Lemma clip_8000_not_short :
  ~ INR (List.length (to_mono (Arr1 (repeat 0.5 8000)))) < IZR 16000 * 0.5.
Proof.
  cbn [to_mono]. rewrite repeat_length, INR_IZR_INZ.
  change (Z.of_nat 8000) with 8000%Z. lra.
Qed.

(** A run of the normal path: energy 0.2, pitch deviation 20 and tempo 150
    give joy and anxiety the same score, and joy, listed first, wins. *)
Example analyze_emotions_tie :
  let r := analyze_emotions (stub_librosa [] 150)
             (Arr1 (repeat 0.5 8000)) 16000 None in
  dominant_emotion r = "gioia"%string /\
  emotion_probabilities r =
    [("gioia", (0.2 + 0.2) / 1.3); ("tristezza", 0 / 1.3);
     ("rabbia", (0.2 * 0.5 + 0.2) / 1.3); ("ansia", (0 + 0.1 + 0.3) / 1.3);
     ("neutrale", 0.2 / 1.3)]%string.
Proof.
  cbv zeta. unfold analyze_emotions, analyze_emotions_try.
  destruct (Rlt_dec _ _) as [Hshort | _];
    [exfalso; exact (clip_8000_not_short Hshort)|].
  cbn [stub_librosa stft_abs rms_of_spectrum onset_strength beat_track
       piptrack bind map snd np.max].
  assert (Htop : Rmax 1 (Rmax 1 0.05) = 1).
  { unfold Rmax. repeat destruct (Rle_dec _ _); lra. }
  rewrite Htop. cbn [filter snd].
  rewrite !gtb_true, gtb_false by lra.
  cbn [map fst List.length Nat.ltb Nat.leb].
  assert (Hmean : np.mean [0.2] = 0.2).
  { unfold np.mean. simpl. field. }
  assert (Hstd : np.std [100; 140] = 20).
  { apply std_of_square; [lra|]. unfold np.mean. simpl. field. }
  rewrite Hmean, Hstd.
  unfold raw_scores.
  destruct (Rgt_dec 0.2 0.1) as [_|]; [|lra].
  destruct (Rgt_dec 20 0) as [_|]; [|lra].
  destruct (Rgt_dec 150 120) as [_|]; [|lra].
  cbn.
  replace (Rmin (20 / 100) 0.3) with 0.2
    by (unfold Rmin; destruct (Rle_dec _ _); lra).
  replace (Rmin (20 / 200) 0.2) with 0.1
    by (unfold Rmin; destruct (Rle_dec _ _); lra).
  replace (Rmin ((150 - 120) / 100) 0.3) with 0.3
    by (unfold Rmin; destruct (Rle_dec _ _); lra).
  replace (Rmin ((150 - 120) / 150) 0.2) with 0.2
    by (unfold Rmin; destruct (Rle_dec _ _); lra).
  unfold normalize_scores.
  assert (Htotal :
    py_sum (values [("gioia", 0.2 + 0.2); ("tristezza", 0);
                    ("rabbia", 0.2 * 0.5 + 0.2); ("ansia", 0 + 0.1 + 0.3);
                    ("neutrale", 0.2)]%string) = 1.3).
  { unfold py_sum. simpl. lra. }
  rewrite Htotal. destruct (Rgt_dec 1.3 0) as [_|]; [|lra].
  cbn [map max_by_value max_from bind snd].
  repeat match goal with
         | |- context [Rgt_dec ?a ?b] =>
             destruct (Rgt_dec a b) as [Hc | Hc]; [exfalso; lra|]; clear Hc
         end.
  cbn. split; reflexivity.
Qed.

Lemma short_clip_default_result_witness :
  INR (List.length (to_mono (Arr1 (repeat 0 4000)))) < IZR 16000 * 0.5 /\
  analyze_emotions (stub_librosa [] 150) (Arr1 (repeat 0 4000)) 16000 None =
    _get_default_results.
Proof.
  assert (H : INR (List.length (to_mono (Arr1 (repeat 0 4000))))
              < IZR 16000 * 0.5).
  { cbn [to_mono]. rewrite repeat_length, INR_IZR_INZ.
    change (Z.of_nat 4000) with 4000%Z. lra. }
  split; [exact H|].
  exact (proj2 (short_clip_default_result (stub_librosa [] 150)
                  (Arr1 (repeat 0 4000)) 16000 None H)).
Defined.

Lemma dominant_emotion_first_argmax_witness :
  exists r,
    analyze_emotions_try (stub_librosa [] 150) (Arr1 (repeat 0.5 8000))
      16000 None = Some r /\
    keys (emotion_probabilities r) = emotions /\
    exists i v,
      nth_error (emotion_probabilities r) i = Some (dominant_emotion r, v) /\
      (forall k w, In (k, w) (emotion_probabilities r) -> w <= v) /\
      (forall j k w, (j < i)%nat ->
         nth_error (emotion_probabilities r) j = Some (k, w) -> w < v).
Proof.
  destruct (analyze_emotions_try_returns (stub_librosa [] 150)
              (Arr1 (repeat 0.5 8000)) 16000 None
              [[1]; [1]] [0.2] [0] (150, [])
              [(100, 1); (140, 1); (500, 0.05)]
              clip_8000_not_short eq_refl eq_refl eq_refl eq_refl eq_refl)
    as [r E].
  { discriminate. }
  exists r. split; [exact E|].
  exact (dominant_emotion_first_argmax _ _ _ _ r E clip_8000_not_short).
Defined.

(* ------------------------------------------------------------------ *)
(** * Means, deviations and maxima *)

Lemma np_sum_nonneg (l : list R) :
  Forall (fun v => 0 <= v) l -> 0 <= np.sum l.
Proof.
  induction 1 as [|x l Hx _ IH]; simpl; lra.
Qed.

Lemma np_sum_pos (l : list R) :
  Forall (fun v => 0 < v) l -> l <> [] -> 0 < np.sum l.
Proof.
  intros H Hne. destruct H as [|x l Hx Hl]; [congruence|]. simpl.
  assert (0 <= np.sum l).
  { apply np_sum_nonneg. eapply Forall_impl; [|exact Hl]. intros; simpl in *; lra. }
  lra.
Qed.

Lemma np_mean_nonneg (l : list R) :
  Forall (fun v => 0 <= v) l -> 0 <= np.mean l.
Proof.
  intros H. unfold np.mean. destruct l as [|x l].
  - simpl. unfold Rdiv. rewrite Rmult_0_l. lra.
  - apply Rmult_le_pos.
    + apply np_sum_nonneg, H.
    + left. apply Rinv_0_lt_compat, lt_0_INR. simpl. lia.
Qed.

Lemma np_mean_pos (l : list R) :
  Forall (fun v => 0 < v) l -> l <> [] -> 0 < np.mean l.
Proof.
  intros H Hne. unfold np.mean. apply Rmult_lt_0_compat.
  - apply np_sum_pos; assumption.
  - apply Rinv_0_lt_compat, lt_0_INR. destruct l; [congruence | simpl; lia].
Qed.

Lemma np_std_nonneg (l : list R) : 0 <= np.std l.
Proof. unfold np.std. apply sqrt_pos. Qed.

(** [max(l)] is an element of [l] that bounds all the others. *)
Lemma fold_max_spec (r : list R) (x : R) :
  let m := fold_left (fun m y => if Rgt_dec y m then y else m) r x in
  In m (x :: r) /\ Forall (fun v => v <= m) (x :: r).
Proof.
  revert x. induction r as [|y r IH]; intros x; cbn [fold_left].
  - split; [left; reflexivity|]. constructor; [lra | constructor].
  - destruct (Rgt_dec y x) as [Hgt | Hle].
    + destruct (IH y) as [Hin Hall]. split.
      * right. exact Hin.
      * inversion Hall as [|? ? Hy Hr]; subst.
        constructor; [lra|]. constructor; assumption.
    + destruct (IH x) as [Hin Hall]. split.
      * destruct Hin as [<- | Hin]; [left; reflexivity | right; right; exact Hin].
      * inversion Hall as [|? ? Hx Hr]; subst.
        constructor; [assumption|]. constructor; [lra | assumption].
Qed.

Lemma py_max_spec (l : list R) (m : R) :
  py_max l = Some m -> In m l /\ Forall (fun v => v <= m) l.
Proof.
  destruct l as [|x r]; simpl; [discriminate|].
  intros [= <-]. apply fold_max_spec.
Qed.

Lemma py_max_some (l : list R) : l <> [] -> exists m, py_max l = Some m.
Proof. destruct l; [congruence|]. simpl. eauto. Qed.

(* ------------------------------------------------------------------ *)
(** * Lists mapped with a function that may raise *)

Lemma mapM_Forall2 {A B : Type} (f : A -> option B) (l : list A) (l' : list B) :
  mapM f l = Some l' -> Forall2 (fun x y => f x = Some y) l l'.
Proof.
  revert l'. induction l as [|x l IH]; intros l'; simpl.
  - intros [= <-]. constructor.
  - destruct (f x) as [y|] eqn:Hy; cbn [bind]; [|discriminate].
    destruct (mapM f l) as [ys|]; cbn [bind]; [|discriminate].
    intros [= <-]. constructor; [exact Hy | apply IH; reflexivity].
Qed.

Lemma mapM_total {A B : Type} (f : A -> option B) (l : list A) :
  (forall x, In x l -> f x <> None) -> exists l', mapM f l = Some l'.
Proof.
  induction l as [|x l IH]; intros H; simpl.
  - eauto.
  - destruct (f x) as [y|] eqn:Hy.
    + destruct IH as [ys ->]; [intros z Hz; apply H; right; exact Hz|].
      cbn [bind]. eauto.
    + exfalso. apply (H x); [left; reflexivity | exact Hy].
Qed.

(* ------------------------------------------------------------------ *)
(** * The peak picker *)

(** Every reported frame lies more than [wait] frames after the one
    reported before it. *)
Lemma wait_filter_spaced (wait : Z) (candidates : list Z) (last_onset : option Z) :
  Forall (fun d => (wait < d)%Z)
         (np.diff_int (wait_filter wait last_onset candidates)) /\
  (forall l e, last_onset = Some l ->
     hd_error (wait_filter wait last_onset candidates) = Some e ->
     (l + wait < e)%Z).
Proof.
  revert last_onset.
  induction candidates as [|i rest IH]; intros last_onset.
  - simpl. split; [constructor | discriminate].
  - assert (Hkeep :
      Forall (fun d => (wait < d)%Z)
             (np.diff_int (i :: wait_filter wait (Some i) rest))).
    { destruct (IH (Some i)) as [Hd Hh].
      destruct (wait_filter wait (Some i) rest) as [|b evs] eqn:E.
      - constructor.
      - cbn [np.diff_int]. constructor; [|exact Hd].
        specialize (Hh i b eq_refl eq_refl). lia. }
    cbn [wait_filter]. destruct last_onset as [l|].
    + destruct (l + wait <? i)%Z eqn:Hfar.
      * split; [exact Hkeep|]. intros l' e [= <-] [= <-].
        apply Z.ltb_lt, Hfar.
      * apply IH.
    + split; [exact Hkeep | discriminate].
Qed.

Lemma diff_int_nth (l : list Z) (i : nat) (a b : Z) :
  nth_error l i = Some a -> nth_error l (S i) = Some b ->
  In (b - a)%Z (np.diff_int l).
Proof.
  revert i. induction l as [|x l IH]; intros i Ha Hb.
  - destruct i; discriminate.
  - destruct l as [|y l]; [destruct i; discriminate|].
    destruct i as [|i].
    + injection Ha as <-. injection Hb as <-. left. reflexivity.
    + right. apply (IH i); assumption.
Qed.

Lemma diff_int_length (l : list Z) :
  List.length (np.diff_int l) = pred (List.length l).
Proof.
  induction l as [|x [|y l] IH]; [reflexivity | reflexivity|].
  change (np.diff_int (x :: y :: l)) with ((y - x)%Z :: np.diff_int (y :: l)).
  cbn [List.length]. rewrite IH. reflexivity.
Qed.

(* ------------------------------------------------------------------ *)
(** * The health engine *)

Import HealthAnalyzer.

Tactic Notation "bind_some" hyp(H) ident(x) :=
  match type of H with
  | bind ?m _ = Some _ =>
      let E := fresh "E" x in
      destruct m as [x|] eqn:E; cbn [bind] in H; [|discriminate H]
  end.

Lemma analyze_health_parts (lib : Librosa) (audio_data : list R) (sr : Z)
    (age_group : string) (r : HealthResult) :
  analyze_health lib audio_data sr age_group = Some r ->
  exists y,
    _preprocess_audio lib audio_data sr = Some y /\
    _analyze_breathing lib y sr age_group = Some (breathing r) /\
    _analyze_voice_quality lib y sr = Some (voice_quality r) /\
    _analyze_fatigue lib y sr = Some (fatigue r) /\
    _analyze_speech_rhythm lib y sr = Some (speech_rhythm r).
Proof.
  unfold analyze_health. intros H.
  bind_some H y. bind_some H b. bind_some H q. bind_some H f. bind_some H s.
  injection H as <-. exists y. cbn. auto.
Qed.

Lemma analyze_breathing_parts (lib : Librosa) (y : list R) (sr : Z)
    (age_group : string) (b : Breathing) :
  _analyze_breathing lib y sr age_group = Some b ->
  sr <> 0%Z /\
  exists env breath_events,
    onset_strength lib y sr = Some env /\
    onset_detect lib env sr (sr / 2) = Some breath_events /\
    regularity b = breathing_regularity_of breath_events sr.
Proof.
  unfold _analyze_breathing. intros H.
  bind_some H env. bind_some H events. bind_some H duration.
  injection H as <-. split.
  - unfold py_truediv in Eduration. intros ->. discriminate Eduration.
  - exists env, events. cbn. auto.
Qed.

Lemma analyze_breathing_returns (lib : Librosa) (y : list R) (sr : Z)
    (age_group : string) (env : list R) :
  sr <> 0%Z ->
  onset_strength lib y sr = Some env ->
  peak_candidates lib env <> None ->
  exists b, _analyze_breathing lib y sr age_group = Some b.
Proof.
  intros Hsr Henv Hc. unfold _analyze_breathing, onset_detect, py_truediv.
  rewrite Henv; cbn [bind].
  destruct (peak_candidates lib env) as [c|]; [|congruence]. cbn [bind].
  destruct (Z.eqb_spec sr 0) as [|_]; [contradiction|]. cbn [bind]. eauto.
Qed.

Lemma select_rows_returns (S : list (list R)) (mask : list bool) :
  List.length mask = List.length S -> exists rows, select_rows S mask = Some rows.
Proof.
  intros H. unfold select_rows. rewrite H, Nat.eqb_refl. eauto.
Qed.

Lemma analyze_voice_quality_returns (lib : Librosa) (y : list R) (sr : Z)
    (S : list (list R)) :
  piptrack lib y sr <> None ->
  rms lib y <> None ->
  stft_abs lib y = Some S ->
  List.length (fft_frequencies lib sr) = List.length S ->
  exists q, _analyze_voice_quality lib y sr = Some q.
Proof.
  intros Hp Hr HS Hlen. unfold _analyze_voice_quality.
  destruct (piptrack lib y sr) as [bins|]; [|congruence]. cbn [bind].
  assert (Hvalid : exists pv,
    (if (0 <? List.length bins)%nat
     then top <- np.max (map snd bins) ;;
          Some (map fst (filter (fun b => gtb (snd b) (top * 0.1)) bins))
     else Some []) = Some pv).
  { destruct bins as [|b bins]; [cbn; eauto|].
    destruct (np_max_some (map snd (b :: bins))) as [top Htop]; [discriminate|].
    cbn [List.length Nat.ltb Nat.leb]. rewrite Htop. cbn [bind]. eauto. }
  destruct Hvalid as [pv ->]. cbn [bind].
  destruct (rms lib y) as [v|]; [|congruence]. cbn [bind].
  rewrite HS. cbn [bind].
  destruct (select_rows_returns S (map (fun f => leb f 2000) (fft_frequencies lib sr)))
    as [hr ->]; [rewrite length_map; exact Hlen|].
  cbn [bind].
  destruct (select_rows_returns S
              (map negb (map (fun f => leb f 2000) (fft_frequencies lib sr))))
    as [nr ->]; [rewrite !length_map; exact Hlen|].
  cbn [bind]. eauto.
Qed.

Lemma segments_of_returns (y : list R) (sr : Z) :
  sr <> 0%Z -> exists segments, segments_of y sr = Some segments.
Proof.
  intros Hsr. unfold segments_of, py_range.
  destruct (Z.eqb_spec (sr * 3) 0) as [H0|_]; [lia|]. cbn [bind]. eauto.
Qed.

Lemma analyze_fatigue_returns (lib : Librosa) (y : list R) (sr : Z) :
  sr <> 0%Z ->
  (forall segment, rms lib segment <> None) ->
  exists f, _analyze_fatigue lib y sr = Some f.
Proof.
  intros Hsr Hrms. unfold _analyze_fatigue.
  destruct (segments_of_returns y sr Hsr) as [segments ->]. cbn [bind].
  destruct segments as [|s segments]; [eauto|].
  destruct (mapM_total
              (fun segment => rms <- rms lib segment ;; Some (np.mean rms))
              (s :: segments)) as [trend ->].
  { intros x _. specialize (Hrms x). destruct (rms lib x); [discriminate | congruence]. }
  cbn [bind]. eauto.
Qed.

Lemma analyze_speech_rhythm_returns (lib : Librosa) (y : list R) (sr : Z)
    (env : list R) :
  onset_strength lib y sr = Some env ->
  beat_track lib env sr <> None ->
  exists s, _analyze_speech_rhythm lib y sr = Some s.
Proof.
  intros Henv Hb. unfold _analyze_speech_rhythm. rewrite Henv. cbn [bind].
  destruct (beat_track lib env sr) as [[tempo beats]|]; [|congruence].
  cbn [bind]. eauto.
Qed.

Lemma analyze_health_returns (lib : Librosa) (audio_data : list R) (sr : Z)
    (age_group : string) :
  sr <> 0%Z ->
  librosa_calls_return lib audio_data sr ->
  exists r, analyze_health lib audio_data sr age_group = Some r.
Proof.
  intros Hsr (y & env & S & Hy & Henv & Hc & Hb & Hp & Hrms & HS & Hlen).
  unfold analyze_health. rewrite Hy. cbn [bind].
  destruct (analyze_breathing_returns lib y sr age_group env Hsr Henv Hc)
    as [b ->]. cbn [bind].
  destruct (analyze_voice_quality_returns lib y sr S Hp (Hrms y) HS Hlen)
    as [q ->]. cbn [bind].
  destruct (analyze_fatigue_returns lib y sr Hsr Hrms) as [f ->]. cbn [bind].
  destruct (analyze_speech_rhythm_returns lib y sr env Henv Hb) as [s ->].
  cbn [bind]. eauto.
Qed.

Lemma stub_calls_return (candidates : list Z) (tempo : R) (clip : list R)
    (sr : Z) :
  clip <> [] -> librosa_calls_return (stub_librosa candidates tempo) clip sr.
Proof.
  intros Hne.
  destruct (np_max_some (map Rabs clip)) as [top Htop].
  { destruct clip; [congruence | discriminate]. }
  exists (if Rgt_dec top 0 then map (fun x => x / top) clip else clip),
         [0], [[1]; [1]].
  unfold _preprocess_audio. cbn. unfold librosa_normalize. rewrite Htop. cbn.
  repeat split; discriminate.
Qed.

(** The gap that [wait = sr // 2] leaves between two reported frames, in
    seconds: a frame is [hop_length] samples long. *)
Lemma frames_to_seconds (sr d : Z) :
  (0 < sr)%Z -> (sr / 2 < d)%Z -> 256 < IZR (d * hop_length) / IZR sr.
Proof.
  intros Hsr Hd.
  assert (Hlt : (sr < 2 * d)%Z).
  { pose proof (Z.div_mod sr 2 ltac:(lia)).
    pose proof (Z.mod_pos_bound sr 2 ltac:(lia)). lia. }
  assert (Hsr' : 0 < IZR sr) by (apply IZR_lt; exact Hsr).
  assert (Hd' : IZR sr < 2 * IZR d).
  { rewrite <- mult_IZR. apply IZR_lt. exact Hlt. }
  unfold hop_length. rewrite mult_IZR.
  apply Rmult_lt_reg_r with (r := IZR sr); [exact Hsr'|].
  unfold Rdiv. rewrite Rmult_assoc, Rinv_l by lra. lra.
Qed.

(** In every run of [analyze_health] two consecutive breathing events are
    more than [sr // 2] frames apart, which is more than 256 seconds of
    audio: the waiting time is given in samples and counted in frames. *)
Lemma breath_events_far_apart (lib : Librosa) (audio_data : list R)
    (sr : Z) (age_group : string) (r : HealthResult) :
  (0 < sr)%Z ->
  analyze_health lib audio_data sr age_group = Some r ->
  exists y onset_env breath_events,
    _preprocess_audio lib audio_data sr = Some y /\
    onset_strength lib y sr = Some onset_env /\
    onset_detect lib onset_env sr (sr / 2) = Some breath_events /\
    forall i a b,
      nth_error breath_events i = Some a ->
      nth_error breath_events (S i) = Some b ->
      (sr / 2 < b - a)%Z /\ 256 < IZR ((b - a) * hop_length) / IZR sr.
Proof.
  intros Hsr H. apply analyze_health_parts in H.
  destruct H as (y & Hy & Hb & _).
  apply analyze_breathing_parts in Hb.
  destruct Hb as (_ & env & events & Henv & Hdetect & _).
  exists y, env, events. repeat (split; [assumption|]).
  intros i a b Ha Hb.
  unfold onset_detect in Hdetect.
  destruct (peak_candidates lib env) as [candidates|]; [|discriminate].
  cbn [bind] in Hdetect. injection Hdetect as <-.
  destruct (wait_filter_spaced (sr / 2) candidates None) as [Hspaced _].
  rewrite Forall_forall in Hspaced.
  specialize (Hspaced _ (diff_int_nth _ i a b Ha Hb)).
  split; [exact Hspaced|]. apply frames_to_seconds; assumption.
Qed.

(** A run of the detector at 16 kHz: candidates closer than 8001 frames to
    the last reported one are dropped. *)
Example onset_detect_run :
  onset_detect (stub_librosa [0; 100; 8001; 9000; 16001; 16002]%Z 150)
    [0] 16000 (16000 / 2) = Some [0; 8001; 16002]%Z.
Proof. reflexivity. Qed.


Lemma breathing_regularity_bounds (breath_events : list Z) (sr wait : Z) :
  (0 < sr)%Z -> (0 <= wait)%Z ->
  Forall (fun d => (wait < d)%Z) (np.diff_int breath_events) ->
  let breath_intervals :=
    map (fun d => IZR d / IZR sr) (np.diff_int breath_events) in
  breathing_regularity_of breath_events sr <= 1 /\
  ((List.length breath_events <= 1)%nat ->
   breathing_regularity_of breath_events sr = 0) /\
  ((1 < List.length breath_events)%nat ->
   0 < np.mean breath_intervals /\
   breathing_regularity_of breath_events sr =
     1 - np.std breath_intervals / np.mean breath_intervals).
Proof.
  intros Hsr Hwait Hspaced intervals.
  assert (Hsr' : 0 < IZR sr) by (apply IZR_lt; exact Hsr).
  assert (Hmany : (1 < List.length breath_events)%nat ->
                  0 < np.mean intervals).
  { intros Hlen. apply np_mean_pos.
    - unfold intervals. apply Forall_map.
      eapply Forall_impl; [|exact Hspaced]. cbv beta. intros d Hd.
      apply Rdiv_lt_0_compat; [|exact Hsr']. apply IZR_lt. lia.
    - intros Hnil. apply (f_equal (@List.length R)) in Hnil.
      unfold intervals in Hnil.
      rewrite length_map, diff_int_length in Hnil. simpl in Hnil. lia. }
  unfold breathing_regularity_of. fold intervals.
  destruct (Nat.ltb_spec 1 (List.length breath_events)) as [Hlen | Hlen].
  - specialize (Hmany Hlen).
    destruct (Rgt_dec (np.mean intervals) 0) as [_ | Hn]; [|lra].
    split; [|split].
    + assert (0 <= np.std intervals / np.mean intervals).
      { apply Rmult_le_pos; [apply np_std_nonneg|].
        left. apply Rinv_0_lt_compat. exact Hmany. }
      lra.
    + intros H. lia.
    + intros _. split; [exact Hmany | reflexivity].
  - split; [lra|]. split; [reflexivity|]. intros H. lia.
Qed.

(** C4, as the code has it.  Under a positive sample rate the regularity
    returned by [analyze_health] is at most one; it is [0] with fewer than
    two breathing events, and otherwise it is one minus the standard
    deviation of the intervals between the events over their mean, the mean
    being positive.  There is no lower bound: the deviation may exceed
    the mean. *)
Theorem breathing_regularity_at_most_one (lib : Librosa) (audio_data : list R)
    (sr : Z) (age_group : string) (r : HealthResult) :
  (0 < sr)%Z ->
  analyze_health lib audio_data sr age_group = Some r ->
  exists y onset_env breath_events,
    _preprocess_audio lib audio_data sr = Some y /\
    onset_strength lib y sr = Some onset_env /\
    onset_detect lib onset_env sr (sr / 2) = Some breath_events /\
    let breath_intervals :=
      map (fun d => IZR d / IZR sr) (np.diff_int breath_events) in
    regularity (breathing r) <= 1 /\
    ((List.length breath_events <= 1)%nat -> regularity (breathing r) = 0) /\
    ((1 < List.length breath_events)%nat ->
     0 < np.mean breath_intervals /\
     regularity (breathing r) =
       1 - np.std breath_intervals / np.mean breath_intervals).
Proof.
  intros Hsr H.
  apply analyze_health_parts in H. destruct H as (y & Hy & Hb & _).
  apply analyze_breathing_parts in Hb.
  destruct Hb as (_ & env & events & Henv & Hdetect & ->).
  exists y, env, events. repeat (split; [assumption|]).
  apply (breathing_regularity_bounds events sr (sr / 2) Hsr).
  - apply Z.div_pos; lia.
  - unfold onset_detect in Hdetect.
    destruct (peak_candidates lib env) as [c|]; [|discriminate].
    cbn [bind] in Hdetect. injection Hdetect as <-.
    apply wait_filter_spaced.
Qed.

Lemma uneven_events_regularity :
  breathing_regularity_of uneven_events 16000 = 1 - 1.25 / (18001 / 16000).
Proof.
  unfold breathing_regularity_of.
  change (np.diff_int uneven_events) with [8001; 8001; 8001; 8001; 58001]%Z.
  cbn [List.length Nat.ltb Nat.leb map].
  assert (Hmean : np.mean [8001 / 16000; 8001 / 16000; 8001 / 16000;
                           8001 / 16000; 58001 / 16000] = 18001 / 16000).
  { unfold np.mean. simpl. field. }
  assert (Hstd : np.std [8001 / 16000; 8001 / 16000; 8001 / 16000;
                         8001 / 16000; 58001 / 16000] = 1.25).
  { apply std_of_square; [lra|]. rewrite Hmean. unfold np.mean. simpl. lra. }
  rewrite Hmean, Hstd.
  destruct (Rgt_dec (18001 / 16000) 0) as [_ | Hn]; [reflexivity | lra].
Qed.

(** C4, the counterexample.  Six events that the detector reports as they
    are (they are more than 8000 frames apart) give intervals of mean
    18001/16000 and standard deviation 1.25: the regularity is negative. *)
Lemma breathing_regularity_negative :
  wait_filter (16000 / 2) None uneven_events = uneven_events /\
  exists r,
    analyze_health (stub_librosa uneven_events 150) [0.5; -0.5] 16000 "adult"
      = Some r /\
    regularity (breathing r) < 0.
Proof.
  split; [reflexivity|].
  destruct (analyze_health_returns (stub_librosa uneven_events 150)
              [0.5; -0.5] 16000 "adult") as [r Hr].
  { discriminate. }
  { apply stub_calls_return. discriminate. }
  exists r. split; [exact Hr|].
  apply analyze_health_parts in Hr. destruct Hr as (y & _ & Hb & _).
  apply analyze_breathing_parts in Hb.
  destruct Hb as (_ & env & events & Henv & Hdetect & ->).
  cbn in Henv. injection Henv as <-.
  cbv in Hdetect. injection Hdetect as <-.
  fold uneven_events. rewrite uneven_events_regularity. lra.
Qed.

Lemma breathing_regularity_at_most_one_witness :
  (0 < 16000)%Z /\
  exists r,
    analyze_health (stub_librosa uneven_events 150) [0.5; -0.5] 16000 "adult"
      = Some r /\
    regularity (breathing r) <= 1.
Proof.
  split; [reflexivity|].
  destruct (analyze_health_returns (stub_librosa uneven_events 150)
              [0.5; -0.5] 16000 "adult") as [r Hr].
  { discriminate. }
  { apply stub_calls_return. discriminate. }
  exists r. split; [exact Hr|].
  destruct (breathing_regularity_at_most_one
              (stub_librosa uneven_events 150) [0.5; -0.5] 16000 "adult" r
              eq_refl Hr) as (y & env & events & _ & _ & _ & Hle & _).
  exact Hle.
Defined.

Lemma quality_plus_strain (jitter shimmer : R) :
  1 - np.mean [jitter; shimmer; (jitter + shimmer) / 2]
  = 1 - (jitter + shimmer) / 2.
Proof. unfold np.mean. simpl. field. Qed.

Lemma analyze_voice_quality_parts (lib : Librosa) (y : list R) (sr : Z)
    (q : VoiceQuality) :
  _analyze_voice_quality lib y sr = Some q ->
  piptrack lib y sr <> None /\ rms lib y <> None /\ stft_abs lib y <> None /\
  exists jitter shimmer,
    strain q = (jitter + shimmer) / 2 /\
    quality_score q = 1 - np.mean [jitter; shimmer; strain q].
Proof.
  unfold _analyze_voice_quality. intros H.
  bind_some H bins. bind_some H pitches_valid. bind_some H v. bind_some H S.
  bind_some H harmonic_rows. bind_some H noise_rows.
  injection H as <-. cbn [strain quality_score].
  repeat (split; [discriminate|]). eauto.
Qed.

(** C9, over the reals.  With the floats read as real numbers, in the record
    returned by [analyze_health] the quality score is one minus the
    strain: the mean of jitter, shimmer and their mean is that mean again,
    so quality score and strain add up to one.  (In floating point the
    two agree up to rounding only: see [Float64].) *)
Theorem quality_score_plus_strain (lib : Librosa) (audio_data : list R)
    (sr : Z) (age_group : string) (r : HealthResult) :
  analyze_health lib audio_data sr age_group = Some r ->
  (exists jitter shimmer,
     strain (voice_quality r) = (jitter + shimmer) / 2 /\
     quality_score (voice_quality r) =
       1 - np.mean [jitter; shimmer; strain (voice_quality r)]) /\
  quality_score (voice_quality r) = 1 - strain (voice_quality r) /\
  quality_score (voice_quality r) + strain (voice_quality r) = 1.
Proof.
  intros H. apply analyze_health_parts in H.
  destruct H as (y & _ & _ & Hq & _).
  apply analyze_voice_quality_parts in Hq.
  destruct Hq as (_ & _ & _ & jitter & shimmer & Hs & Hq).
  split; [exists jitter, shimmer; auto|].
  rewrite Hq, Hs, quality_plus_strain. split; lra.
Qed.

(** The strain, with the shimmer written out. *)
Lemma analyze_voice_quality_shimmer (lib : Librosa) (y : list R) (sr : Z)
    (q : VoiceQuality) :
  _analyze_voice_quality lib y sr = Some q ->
  exists jitter v,
    0 <= jitter /\
    rms lib y = Some v /\
    strain q =
      (jitter + (if Rgt_dec (np.mean v) 0 then np.std v / np.mean v else 0)) / 2.
Proof.
  unfold _analyze_voice_quality. intros H.
  bind_some H bins. bind_some H pitches_valid. bind_some H v. bind_some H S.
  bind_some H harmonic_rows. bind_some H noise_rows.
  injection H as <-. cbn [strain].
  eexists. exists v. split; [|split; [reflexivity | reflexivity]].
  destruct (1 <? _)%nat; [|lra].
  destruct (Rgt_dec (np.mean pitches_valid) 0) as [Hm | _]; [|lra].
  apply Rmult_le_pos; [apply sqrt_pos|].
  left. apply Rinv_0_lt_compat. lra.
Qed.

(** A clip of two samples whose RMS frames are 1 and 0.5: the shimmer is
    1/3, the strain is positive, and quality score and strain add up
    to one. *)
Lemma quality_score_plus_strain_witness :
  exists r,
    analyze_health (steady_librosa 120 []) [1; 0.5] 16000 "adult" = Some r /\
    1 / 6 <= strain (voice_quality r) /\
    quality_score (voice_quality r) = 1 - strain (voice_quality r) /\
    quality_score (voice_quality r) + strain (voice_quality r) = 1.
Proof.
  destruct (analyze_health_returns (steady_librosa 120 [])
              [1; 0.5] 16000 "adult") as [r Hr].
  { discriminate. }
  { exists [1; 0.5], [0], [[1]; [1]]. cbn. repeat split; discriminate. }
  exists r. split; [exact Hr|]. split.
  - pose proof Hr as Hparts. apply analyze_health_parts in Hparts.
    destruct Hparts as (y & Hy & _ & Hq & _).
    cbn in Hy. injection Hy as <-.
    apply analyze_voice_quality_shimmer in Hq.
    destruct Hq as (jitter & v & Hj & Hv & ->).
    cbn in Hv. injection Hv as <-.
    assert (H1 : Rabs 1 = 1) by apply Rabs_R1.
    assert (H2 : Rabs 0.5 = 0.5) by (apply Rabs_right; lra).
    rewrite H1, H2.
    assert (Hmean : np.mean [1; 0.5] = 0.75) by (unfold np.mean; simpl; lra).
    assert (Hstd : np.std [1; 0.5] = 0.25).
    { apply std_of_square; [lra|]. rewrite Hmean. unfold np.mean. simpl. lra. }
    rewrite Hmean, Hstd.
    destruct (Rgt_dec 0.75 0) as [_ | Hn]; lra.
  - exact (proj2 (quality_score_plus_strain _ _ _ _ r Hr)).
Defined.

(** C9, the counterexample.  In double precision a jitter of 0 and a
    shimmer of 0.8 give the strain 0.4 and the quality score
    0.5999999999999999: the score is not 1 minus the strain, and their sum
    is 0.9999999999999999, below 1. *)
Lemma quality_plus_strain_rounds :
  PrimFloat.eqb (Float64.strain Float64.zero Float64.shimmer_0_8)
                Float64.strain_0_4 = true /\
  PrimFloat.eqb (Float64.quality_score Float64.zero Float64.shimmer_0_8)
                (PrimFloat.sub Float64.one
                   (Float64.strain Float64.zero Float64.shimmer_0_8)) = false /\
  PrimFloat.eqb
    (PrimFloat.add (Float64.quality_score Float64.zero Float64.shimmer_0_8)
                   (Float64.strain Float64.zero Float64.shimmer_0_8))
    Float64.one = false /\
  PrimFloat.ltb
    (PrimFloat.add (Float64.quality_score Float64.zero Float64.shimmer_0_8)
                   (Float64.strain Float64.zero Float64.shimmer_0_8))
    Float64.one = true.
Proof. repeat split; vm_compute; reflexivity. Qed.

(* ------------------------------------------------------------------ *)
(** ** Fatigue *)

Example segments_of_run :
  segments_of [1; 2; 3; 4; 5; 6; 7; 8] 2 = Some [[1; 2; 3; 4; 5; 6]; [7; 8]] /\
  segments_of [1; 2; 3; 4; 5; 6; 7] 2 = Some [[1; 2; 3; 4; 5; 6]] /\
  segments_of [1] 2 = Some [] /\
  segments_of [1; 2] 0 = None.
Proof. repeat split; reflexivity. Qed.

Lemma analyze_fatigue_parts (lib : Librosa) (y : list R) (sr : Z) (f : Fatigue) :
  _analyze_fatigue lib y sr = Some f ->
  exists segments,
    segments_of y sr = Some segments /\
    (segments = [] -> timeline f = [0] /\ fatigue_score f = 0) /\
    (segments <> [] ->
     exists energy_trend,
       mapM (fun segment => rms <- rms lib segment ;; Some (np.mean rms))
            segments = Some energy_trend /\
       energy_trend <> [] /\
       timeline f = normalize_trend energy_trend /\
       fatigue_score f = fatigue_score_of (timeline f)).
Proof.
  unfold _analyze_fatigue. intros H. bind_some H segments.
  exists segments. split; [reflexivity|].
  destruct segments as [|s segments].
  - injection H as <-. split; [auto | congruence].
  - bind_some H energy_trend. injection H as <-.
    split; [discriminate|]. intros _. exists energy_trend.
    split; [reflexivity|]. split; [|auto].
    apply mapM_Forall2 in Eenergy_trend.
    inversion Eenergy_trend; discriminate.
Qed.

Lemma normalize_trend_spec (energy_trend : list R) :
  energy_trend <> [] ->
  Forall (fun e => 0 <= e) energy_trend ->
  exists max_energy,
    py_max energy_trend = Some max_energy /\
    normalize_trend energy_trend =
      map (fun e => if Rgt_dec max_energy 0 then e / max_energy else 0)
          energy_trend /\
    Forall (fun v => 0 <= v <= 1) (normalize_trend energy_trend) /\
    (max_energy <= 0 -> Forall (fun v => v = 0) (normalize_trend energy_trend)).
Proof.
  intros Hne Hpos.
  destruct (py_max_some energy_trend Hne) as [m Hm].
  exists m. unfold normalize_trend. rewrite Hm.
  split; [reflexivity|]. split; [reflexivity|].
  apply py_max_spec in Hm. destruct Hm as [_ Hmax].
  rewrite Forall_forall in Hpos, Hmax.
  split; [|intros Hzero]; apply Forall_map, Forall_forall; intros e He;
    destruct (Rgt_dec m 0) as [Hgt | Hle]; try lra.
  specialize (Hpos e He). specialize (Hmax e He). cbv beta in Hmax.
  assert (Hinv : 0 < / m) by (apply Rinv_0_lt_compat; lra).
  split.
  - apply Rmult_le_pos; lra.
  - apply Rmult_le_reg_r with (r := m); [lra|].
    unfold Rdiv. rewrite Rmult_assoc, Rinv_l by lra. lra.
Qed.

Lemma fatigue_score_of_spec (trend : list R) :
  (hd 0 trend > 0 ->
   fatigue_score_of trend = 1 - last trend 0 / hd 0 trend) /\
  (hd 0 trend <= 0 -> fatigue_score_of trend = 0).
Proof.
  unfold fatigue_score_of. destruct trend as [|first rest]; cbn [hd].
  - split; [lra | reflexivity].
  - destruct (Rgt_dec first 0); split; intros; reflexivity || lra.
Qed.

(** C6.  Provided the RMS frames librosa returns are non-negative, the
    fatigue record returned by [analyze_health] is as follows.  Without a
    segment of a second or more the timeline is [[0]] and the score [0].
    Otherwise the timeline is the list of the mean RMS of the segments, each
    divided by the greatest of them (or replaced by [0] when that is not
    positive); its values lie between 0 and 1; and the score is one minus
    the last value over the first, or [0] when the first value is [0]. *)
Theorem fatigue_timeline_and_score (lib : Librosa) (audio_data : list R)
    (sr : Z) (age_group : string) (r : HealthResult) :
  (forall y v, rms lib y = Some v -> Forall (fun e => 0 <= e) v) ->
  analyze_health lib audio_data sr age_group = Some r ->
  exists y segments,
    _preprocess_audio lib audio_data sr = Some y /\
    segments_of y sr = Some segments /\
    (segments = [] ->
     timeline (fatigue r) = [0] /\ fatigue_score (fatigue r) = 0) /\
    (segments <> [] ->
     exists energy_trend max_energy,
       mapM (fun segment => rms <- rms lib segment ;; Some (np.mean rms))
            segments = Some energy_trend /\
       py_max energy_trend = Some max_energy /\
       timeline (fatigue r) =
         map (fun e => if Rgt_dec max_energy 0 then e / max_energy else 0)
             energy_trend /\
       Forall (fun v => 0 <= v <= 1) (timeline (fatigue r)) /\
       (max_energy <= 0 -> Forall (fun v => v = 0) (timeline (fatigue r))) /\
       (hd 0 (timeline (fatigue r)) > 0 ->
        fatigue_score (fatigue r) =
          1 - last (timeline (fatigue r)) 0 / hd 0 (timeline (fatigue r))) /\
       (hd 0 (timeline (fatigue r)) = 0 -> fatigue_score (fatigue r) = 0)).
Proof.
  intros Hrms H. apply analyze_health_parts in H.
  destruct H as (y & Hy & _ & _ & Hf & _).
  apply analyze_fatigue_parts in Hf.
  destruct Hf as (segments & Hseg & Hnone & Hsome).
  exists y, segments. split; [exact Hy|]. split; [exact Hseg|].
  split; [exact Hnone|]. intros Hne.
  destruct (Hsome Hne) as (trend & Htrend & Hne' & Ht & Hs).
  assert (Hpos : Forall (fun e => 0 <= e) trend).
  { apply mapM_Forall2 in Htrend. clear - Htrend Hrms.
    induction Htrend as [|s e ss es He _ IH]; constructor; [|exact IH].
    destruct (rms lib s) as [v|] eqn:Hv; cbn [bind] in He; [|discriminate].
    injection He as <-. apply np_mean_nonneg, (Hrms s v Hv). }
  destruct (normalize_trend_spec trend Hne' Hpos)
    as (m & Hm & Hmap & Hunit & Hzero).
  exists trend, m. rewrite Hs, Ht.
  repeat (split; [assumption|]).
  destruct (fatigue_score_of_spec (normalize_trend trend)) as [Hgt Hle].
  split; [exact Hgt|]. intros H0. apply Hle. lra.
Qed.

Lemma stub_rms_nonneg (candidates : list Z) (tempo : R) (y v : list R) :
  rms (stub_librosa candidates tempo) y = Some v -> Forall (fun e => 0 <= e) v.
Proof.
  cbn. intros [= <-]. apply Forall_map, Forall_forall. intros x _.
  apply Rabs_pos.
Qed.

(** A run at one sample per second: two segments of three samples, the
    second half as loud as the first. *)
Example analyze_fatigue_run :
  _analyze_fatigue (stub_librosa [] 150) [1; -1; 1; 0.5; 0.5; -0.5] 1 =
    Some {| fatigue_score := 1 - (0.5 / 1) / (1 / 1);
            timeline := [1 / 1; 0.5 / 1] |}.
Proof.
  unfold _analyze_fatigue.
  change (segments_of [1; -1; 1; 0.5; 0.5; -0.5] 1)
    with (Some [[1; -1; 1]; [0.5; 0.5; -0.5]]).
  cbn [bind mapM stub_librosa rms map].
  assert (H1 : np.mean [Rabs 1; Rabs (-1); Rabs 1] = 1).
  { unfold np.mean, Rabs. repeat destruct (Rcase_abs _); simpl; lra. }
  assert (H2 : np.mean [Rabs 0.5; Rabs 0.5; Rabs (-0.5)] = 0.5).
  { unfold np.mean, Rabs. repeat destruct (Rcase_abs _); simpl; lra. }
  rewrite H1, H2. unfold normalize_trend, fatigue_score_of.
  cbn [py_max fold_left].
  destruct (Rgt_dec 0.5 1) as [|_]; [lra|].
  cbn [map]. destruct (Rgt_dec 1 0) as [_|]; [|lra].
  destruct (Rgt_dec (1 / 1) 0) as [_|]; [|lra].
  reflexivity.
Qed.

Lemma fatigue_timeline_and_score_witness :
  (forall y v, rms (stub_librosa [] 150) y = Some v ->
               Forall (fun e => 0 <= e) v) /\
  exists r,
    analyze_health (stub_librosa [] 150) [1; -1; 1; 0.5; 0.5; -0.5] 1 "adult"
      = Some r /\
    exists y segments,
      _preprocess_audio (stub_librosa [] 150) [1; -1; 1; 0.5; 0.5; -0.5] 1
        = Some y /\
      segments_of y 1 = Some segments /\
      (segments <> [] -> Forall (fun v => 0 <= v <= 1) (timeline (fatigue r))).
Proof.
  split; [apply stub_rms_nonneg|].
  destruct (analyze_health_returns (stub_librosa [] 150)
              [1; -1; 1; 0.5; 0.5; -0.5] 1 "adult") as [r Hr].
  { discriminate. }
  { apply stub_calls_return. discriminate. }
  exists r. split; [exact Hr|].
  destruct (fatigue_timeline_and_score (stub_librosa [] 150)
              [1; -1; 1; 0.5; 0.5; -0.5] 1 "adult" r
              (stub_rms_nonneg [] 150) Hr)
    as (y & segments & Hy & Hseg & _ & Hsome).
  exists y, segments. split; [exact Hy|]. split; [exact Hseg|].
  intros Hne. destruct (Hsome Hne) as (trend & m & _ & _ & _ & Hunit & _).
  exact Hunit.
Defined.

(* ------------------------------------------------------------------ *)
(** ** Exceptions *)

Lemma analyze_speech_rhythm_parts (lib : Librosa) (y : list R) (sr : Z)
    (s : SpeechRhythm) :
  _analyze_speech_rhythm lib y sr = Some s ->
  exists env, onset_strength lib y sr = Some env /\ beat_track lib env sr <> None.
Proof.
  unfold _analyze_speech_rhythm. intros H. bind_some H env.
  exists env. split; [reflexivity|].
  destruct (beat_track lib env sr); [discriminate | discriminate H].
Qed.

Lemma analyze_voice_quality_spectrum (lib : Librosa) (y : list R) (sr : Z)
    (q : VoiceQuality) :
  _analyze_voice_quality lib y sr = Some q ->
  exists S,
    stft_abs lib y = Some S /\
    List.length (fft_frequencies lib sr) = List.length S.
Proof.
  unfold _analyze_voice_quality. intros H.
  bind_some H bins. bind_some H pitches_valid. bind_some H v. bind_some H S.
  bind_some H harmonic_rows. bind_some H noise_rows.
  exists S. split; [reflexivity|].
  unfold select_rows in Eharmonic_rows.
  destruct (Nat.eqb_spec
              (List.length (map (fun f => leb f 2000) (fft_frequencies lib sr)))
              (List.length S)) as [Hlen | _]; [|discriminate].
  rewrite length_map in Hlen. exact Hlen.
Qed.

(** C3, as the code has it.  [analyze_emotions] always returns a record:
    when its [try] block raises, the default one.  [analyze_health] has no
    [try] block and turns no failure into a default.  It returns a record
    only if the sample rate is not zero, the librosa calls on the
    preprocessed clip have returned and the spectrum has one row per
    frequency of [fft_frequencies]; an exception raised by the first call
    it makes, [librosa.util.normalize], leaves it, and a sample rate of
    zero always makes it raise. *)
Theorem failures_caught_by_emotional_engine_only (lib : Librosa) :
  (forall audio_data sr text_type,
     analyze_emotions_try lib audio_data sr text_type = None ->
     analyze_emotions lib audio_data sr text_type = _get_default_results) /\
  (forall audio_data sr age_group r,
     analyze_health lib audio_data sr age_group = Some r ->
     sr <> 0%Z /\
     exists y env S,
       _preprocess_audio lib audio_data sr = Some y /\
       onset_strength lib y sr = Some env /\
       peak_candidates lib env <> None /\
       beat_track lib env sr <> None /\
       piptrack lib y sr <> None /\
       rms lib y <> None /\
       stft_abs lib y = Some S /\
       List.length (fft_frequencies lib sr) = List.length S) /\
  (forall audio_data sr age_group,
     normalize lib audio_data = None ->
     analyze_health lib audio_data sr age_group = None) /\
  (forall audio_data age_group,
     analyze_health lib audio_data 0 age_group = None).
Proof.
  assert (Honly : forall audio_data sr age_group r,
     analyze_health lib audio_data sr age_group = Some r ->
     sr <> 0%Z /\
     exists y env S,
       _preprocess_audio lib audio_data sr = Some y /\
       onset_strength lib y sr = Some env /\
       peak_candidates lib env <> None /\
       beat_track lib env sr <> None /\
       piptrack lib y sr <> None /\
       rms lib y <> None /\
       stft_abs lib y = Some S /\
       List.length (fft_frequencies lib sr) = List.length S).
  { intros audio_data sr age_group r H.
    apply analyze_health_parts in H.
    destruct H as (y & Hy & Hb & Hq & _ & Hs).
    apply analyze_breathing_parts in Hb.
    destruct Hb as (Hsr & env & events & Henv & Hdetect & _).
    destruct (analyze_voice_quality_spectrum _ _ _ _ Hq) as (S & HS & Hlen).
    apply analyze_voice_quality_parts in Hq.
    destruct Hq as (Hp & Hr & _ & _).
    apply analyze_speech_rhythm_parts in Hs.
    destruct Hs as (env' & Henv' & Hbeat).
    rewrite Henv in Henv'. injection Henv' as <-.
    split; [exact Hsr|]. exists y, env, S.
    split; [exact Hy|]. split; [exact Henv|]. split.
    { unfold onset_detect in Hdetect.
      destruct (peak_candidates lib env); [discriminate | discriminate Hdetect]. }
    repeat (split; [assumption|]). exact Hlen. }
  split; [|split; [exact Honly|split]].
  - intros audio_data sr text_type H. unfold analyze_emotions. rewrite H.
    reflexivity.
  - intros audio_data sr age_group H.
    unfold analyze_health, _preprocess_audio. rewrite H. reflexivity.
  - intros audio_data age_group.
    destruct (analyze_health lib audio_data 0 age_group) as [r|] eqn:E;
      [|reflexivity].
    destruct (Honly _ _ _ _ E) as [Hsr _]. contradiction.
Qed.

(** C3, the counterexample.  On an empty clip [librosa.util.normalize]
    raises (numpy has no maximum of an empty array), and so does
    [analyze_health]; [analyze_emotions] returns its default record. *)
Lemma analyze_health_raises_on_empty_clip :
  analyze_health (stub_librosa [] 150) [] 16000 "adult" = None /\
  analyze_emotions (stub_librosa [] 150) (Arr1 []) 16000 None =
    _get_default_results.
Proof.
  split; [reflexivity|].
  unfold analyze_emotions, analyze_emotions_try. cbn [to_mono List.length INR].
  destruct (Rlt_dec 0 (16000 * 0.5)) as [_ | Hn]; [reflexivity | lra].
Qed.

Lemma failures_caught_by_emotional_engine_only_witness :
  (exists r,
     analyze_health (stub_librosa [] 150) [0.5; -0.5] 16000 "adult" = Some r) /\
  (16000 <> 0)%Z /\
  analyze_health (stub_librosa [] 150) [] 16000 "adult" = None /\
  analyze_health (stub_librosa [] 150) [0.5; -0.5] 0 "adult" = None.
Proof.
  destruct (analyze_health_returns (stub_librosa [] 150)
              [0.5; -0.5] 16000 "adult") as [r Hr].
  { discriminate. }
  { apply stub_calls_return. discriminate. }
  destruct (failures_caught_by_emotional_engine_only (stub_librosa [] 150))
    as (_ & Honly & Hnormalize & Hzero).
  split; [exists r; exact Hr|]. split; [|split].
  - exact (proj1 (Honly _ _ _ _ Hr)).
  - apply Hnormalize. reflexivity.
  - apply Hzero.
Defined.

(* ------------------------------------------------------------------ *)
(** * Further properties of the emotional engine *)

(** The record built on the normal path, field by field, from the three
    features and the raw scores. *)
Lemma analyze_emotions_try_fields (lib : Librosa) (audio_data : ndarray)
    (sr : Z) (text_type : option string) (r : EmotionResult) :
  analyze_emotions_try lib audio_data sr text_type = Some r ->
  ~ INR (List.length (to_mono audio_data)) < IZR sr * 0.5 ->
  exists S rms env tempo beats pitch_std raw dominant,
    stft_abs lib (to_mono audio_data) = Some S /\
    rms_of_spectrum lib S = Some rms /\
    onset_strength lib (to_mono audio_data) sr = Some env /\
    beat_track lib env sr = Some (tempo, beats) /\
    raw_scores (np.mean rms) pitch_std tempo = Some raw /\
    max_by_value (normalize_scores raw) = Some dominant /\
    r = {| dominant_emotion := fst dominant;
           emotion_probabilities := normalize_scores raw;
           speech_rate := _get_speech_rate tempo;
           pitch_variability := _get_pitch_variability pitch_std;
           voice_energy := _get_energy_level (np.mean rms);
           speech_pauses := "normal";
           rhythm_stability := "stable";
           speech_rate_value := Rmin (tempo / 200) 1;
           pitch_variability_value :=
             if Rgt_dec pitch_std 0 then Rmin (pitch_std / 100) 1 else 0.5;
           voice_energy_value := Rmin (np.mean rms * 10) 1;
           speech_pauses_value := 0.5;
           rhythm_stability_value := 0.5 |}.
Proof.
  unfold analyze_emotions_try. intros H Hlong.
  destruct (Rlt_dec _ _) as [Hshort | _]; [contradiction|].
  destruct (stft_abs lib _) as [S|] eqn:HS; cbn [bind] in H; [|discriminate].
  destruct (rms_of_spectrum lib S) as [rms|] eqn:Hrms; cbn [bind] in H;
    [|discriminate].
  destruct (onset_strength lib _ sr) as [env|] eqn:Henv; cbn [bind] in H;
    [|discriminate].
  destruct (beat_track lib env sr) as [[tempo beats]|] eqn:Hbeat;
    cbn [bind] in H; [|discriminate].
  destruct (piptrack lib _ sr) as [bins|]; cbn [bind] in H; [|discriminate].
  destruct (np.max (map snd bins)) as [top|]; cbn [bind] in H;
    [|discriminate].
  exists S, rms, env, tempo, beats.
  destruct (0 <? _)%nat;
    match type of H with
    | context [raw_scores ?e ?p ?t] =>
        exists p;
        destruct (raw_scores e p t) as [raw|] eqn:Hraw; [|discriminate];
        cbn [bind] in H;
        destruct (max_by_value (normalize_scores raw)) as [dominant|] eqn:Hmax;
          [|discriminate];
        cbn [bind] in H; injection H as <-;
        exists raw, dominant; do 6 (split; [assumption || reflexivity|]);
        reflexivity
    end.
Qed.

(** Every result of [analyze_emotions] is the default record or a record
    of the normal path. *)
Lemma analyze_emotions_paths (lib : Librosa) (audio_data : ndarray)
    (sr : Z) (text_type : option string) :
  analyze_emotions lib audio_data sr text_type = _get_default_results \/
  exists r,
    analyze_emotions lib audio_data sr text_type = r /\
    analyze_emotions_try lib audio_data sr text_type = Some r /\
    ~ INR (List.length (to_mono audio_data)) < IZR sr * 0.5.
Proof.
  unfold analyze_emotions.
  destruct (analyze_emotions_try lib audio_data sr text_type) as [r|] eqn:E;
    [|left; reflexivity].
  destruct (analyze_emotions_try_cases _ _ _ _ _ E) as [[_ ->] | [Hlong _]].
  - left. reflexivity.
  - right. exists r. auto.
Qed.

(** The normalised scores, written out. *)
Lemma normalized_shape (energy pitch_std tempo : R) (raw : dict) :
  raw_scores energy pitch_std tempo = Some raw ->
  exists j s a x T,
    0 <= j /\ 0 <= s /\ 0 <= a /\ 0 <= x /\ T = j + s + a + x + 0.2 /\
    normalize_scores raw =
      [("gioia", j / T); ("tristezza", s / T); ("rabbia", a / T);
       ("ansia", x / T); ("neutrale", 0.2 / T)]%string.
Proof.
  intros Hraw.
  destruct (raw_scores_shape energy pitch_std tempo)
    as (j & s & a & x & Hshape & Hj & Hs & Ha & Hx).
  rewrite Hshape in Hraw. injection Hraw as <-.
  exists j, s, a, x, (j + s + a + x + 0.2). repeat (split; [assumption|]).
  split; [reflexivity|].
  unfold normalize_scores.
  assert (HT : py_sum (values
            [("gioia", j); ("tristezza", s); ("rabbia", a); ("ansia", x);
             ("neutrale", 0.2)]%string) = j + s + a + x + 0.2).
  { unfold py_sum. simpl. lra. }
  rewrite HT. destruct (Rgt_dec _ 0) as [_ | Hn]; [reflexivity | lra].
Qed.

Lemma fraction_in_unit (v T : R) : 0 <= v -> v <= T -> 0 < T -> 0 <= v / T <= 1.
Proof.
  intros Hv HvT HT. assert (0 < / T) by (apply Rinv_0_lt_compat, HT).
  split.
  - apply Rmult_le_pos; lra.
  - apply Rmult_le_reg_r with (r := T); [exact HT|].
    unfold Rdiv. rewrite Rmult_assoc, Rinv_l by lra. lra.
Qed.

(** X1.  Every probability [analyze_emotions] returns lies between 0 and
    1, on the normal path as in the default record. *)
Theorem emotion_probabilities_in_unit_interval (lib : Librosa)
    (audio_data : ndarray) (sr : Z) (text_type : option string) :
  Forall (fun v => 0 <= v <= 1)
    (values (emotion_probabilities
               (analyze_emotions lib audio_data sr text_type))).
Proof.
  destruct (analyze_emotions_paths lib audio_data sr text_type)
    as [-> | (r & -> & E & Hlong)].
  - cbn. repeat (apply Forall_cons; [lra|]). apply Forall_nil.
  - destruct (analyze_emotions_try_fields _ _ _ _ _ E Hlong)
      as (S & rms & env & tempo & beats & ps & raw & dom & _ & _ & _ & _ &
          Hraw & _ & ->).
    destruct (normalized_shape _ _ _ _ Hraw)
      as (j & s & a & x & T & Hj & Hs & Ha & Hx & HT & ->).
    cbn. repeat (apply Forall_cons; [apply fraction_in_unit; lra|]).
    apply Forall_nil.
Qed.

(** X2.  The lookup of the dominant emotion among the probabilities, which
    the report makes, never misses: it yields a probability that no other
    emotion exceeds and that is at least 0.2. *)
Theorem dominant_emotion_confidence (lib : Librosa)
    (audio_data : ndarray) (sr : Z) (text_type : option string) :
  let r := analyze_emotions lib audio_data sr text_type in
  exists v,
    ResultsVisualizer.confidence r = Some v /\
    In (dominant_emotion r) emotions /\
    Forall (fun w => w <= v) (values (emotion_probabilities r)) /\
    0.2 <= v <= 1.
Proof.
  cbv zeta.
  destruct (analyze_emotions_paths lib audio_data sr text_type)
    as [-> | (r & -> & E & Hlong)].
  - exists 0.2. cbn. split; [reflexivity|]. split; [tauto|]. split; [|lra].
    repeat (apply Forall_cons; [lra|]). apply Forall_nil.
  - destruct (analyze_emotions_try_fields _ _ _ _ _ E Hlong)
      as (S & rms & env & tempo & beats & ps & raw & dom & _ & _ & _ & _ &
          Hraw & Hmax & ->).
    destruct (normalized_shape _ _ _ _ Hraw)
      as (j & s & a & x & T & Hj & Hs & Ha & Hx & HT & Hn).
    unfold ResultsVisualizer.confidence.
    cbn [dominant_emotion emotion_probabilities].
    apply max_by_value_first_greatest in Hmax.
    destruct Hmax as (i & Hi & Hle & _).
    rewrite Hn in *.
    assert (Hall : Forall (fun w => w <= snd dom)
                     [j / T; s / T; a / T; x / T; 0.2 / T]).
    { repeat apply Forall_cons; try apply Forall_nil.
      - apply (Hle ("gioia"%string, j / T)). simpl. tauto.
      - apply (Hle ("tristezza"%string, s / T)). simpl. tauto.
      - apply (Hle ("rabbia"%string, a / T)). simpl. tauto.
      - apply (Hle ("ansia"%string, x / T)). simpl. tauto.
      - apply (Hle ("neutrale"%string, 0.2 / T)). simpl. tauto. }
    assert (Hsum : j / T + s / T + a / T + x / T + 0.2 / T = 1)
      by (subst T; field; lra).
    assert (Hunit : 0 <= snd dom <= 1).
    { apply nth_error_In in Hi.
      assert (HT0 : 0 < T) by lra.
      simpl in Hi.
      destruct Hi as [<- | [<- | [<- | [<- | [<- | []]]]]]; cbn [snd];
        apply fraction_in_unit; lra. }
    exists (snd dom). split; [|split; [|split]].
    + do 5 (destruct i as [|i]; [injection Hi as <-; reflexivity|]).
      destruct i; discriminate Hi.
    + apply nth_error_In in Hi. simpl in Hi. unfold emotions.
      destruct Hi as [<- | [<- | [<- | [<- | [<- | []]]]]]; simpl; tauto.
    + exact Hall.
    + split; [|apply Hunit].
      inversion Hall as [|? ? H1 Hall1]; subst.
      inversion Hall1 as [|? ? H2 Hall2]; subst.
      inversion Hall2 as [|? ? H3 Hall3]; subst.
      inversion Hall3 as [|? ? H4 Hall4]; subst.
      inversion Hall4 as [|? ? H5 _]; subst. lra.
Qed.

Lemma speech_rate_vocabulary (tempo : R) :
  In (_get_speech_rate tempo) ["fast"; "slow"; "normal"]%string.
Proof.
  unfold _get_speech_rate.
  destruct (Rgt_dec tempo 170); [|destruct (Rlt_dec tempo 130)]; simpl; tauto.
Qed.

Lemma pitch_variability_vocabulary (std : R) :
  In (_get_pitch_variability std) ["high"; "moderate"; "monotone"]%string.
Proof.
  unfold _get_pitch_variability.
  destruct (Rgt_dec std 50); [|destruct (Rgt_dec std 20)]; simpl; tauto.
Qed.

Lemma energy_level_vocabulary (energy : R) :
  In (_get_energy_level energy) ["high"; "medium"; "low"]%string.
Proof.
  unfold _get_energy_level.
  destruct (Rgt_dec energy 0.1); [|destruct (Rgt_dec energy 0.05)]; simpl; tauto.
Qed.

Lemma analyze_emotions_keys (lib : Librosa)
    (audio_data : ndarray) (sr : Z) (text_type : option string) :
  keys (emotion_probabilities (analyze_emotions lib audio_data sr text_type))
  = emotions.
Proof.
  destruct (analyze_emotions_paths lib audio_data sr text_type)
    as [-> | (r & -> & E & Hlong)]; [reflexivity|].
  destruct (analyze_emotions_try_fields _ _ _ _ _ E Hlong)
    as (S & rms & env & tempo & beats & ps & raw & dom & _ & _ & _ & _ &
        Hraw & _ & ->).
  destruct (normalized_shape _ _ _ _ Hraw)
    as (j & s & a & x & T & _ & _ & _ & _ & _ & ->).
  reflexivity.
Qed.

(** X3.  Whatever the clip, the five labels of the result come from the
    fixed vocabularies, and the visualizer has a text for each of them: none
    of its four look-ups falls back on its "not defined" default, and every
    bar of the probability chart gets a colour of its own table, never the
    grey default. *)
Theorem labels_known_to_visualizer (lib : Librosa)
    (audio_data : ndarray) (sr : Z) (text_type : option string) :
  let r := analyze_emotions lib audio_data sr text_type in
  In (speech_rate r) ["fast"; "slow"; "normal"]%string /\
  In (pitch_variability r) ["high"; "moderate"; "monotone"]%string /\
  In (voice_energy r) ["high"; "medium"; "low"]%string /\
  speech_pauses r = "normal"%string /\
  rhythm_stability r = "stable"%string /\
  ResultsVisualizer._interpret_speech_rate (speech_rate r)
    <> "stato non definito"%string /\
  ResultsVisualizer._interpret_pitch_variability (pitch_variability r)
    <> "variabilità non definita"%string /\
  ResultsVisualizer._interpret_voice_energy (voice_energy r)
    <> "energia non definita"%string /\
  ResultsVisualizer._interpret_pauses (speech_pauses r)
    = "presenta una distribuzione naturale delle pause"%string /\
  ResultsVisualizer.bar_colors r =
    ["#FFD700"; "#4169E1"; "#FF4500"; "#9932CC"; "#90EE90"]%string.
Proof.
  cbv zeta.
  assert (Hbars : ResultsVisualizer.bar_colors
                    (analyze_emotions lib audio_data sr text_type) =
                  ["#FFD700"; "#4169E1"; "#FF4500"; "#9932CC"; "#90EE90"]%string).
  { unfold ResultsVisualizer.bar_colors.
    rewrite analyze_emotions_keys. reflexivity. }
  revert Hbars.
  destruct (analyze_emotions_paths lib audio_data sr text_type)
    as [-> | (r & -> & E & Hlong)]; intros Hbars.
  - cbn in *.
    repeat (split; [first [reflexivity | discriminate | tauto]|]).
    exact Hbars.
  - destruct (analyze_emotions_try_fields _ _ _ _ _ E Hlong)
      as (S & rms & env & tempo & beats & ps & raw & dom & _ & _ & _ & _ &
          _ & _ & Hr).
    rewrite Hr in *. cbn [speech_rate pitch_variability voice_energy
                         speech_pauses rhythm_stability].
    pose proof (speech_rate_vocabulary tempo) as H1.
    pose proof (pitch_variability_vocabulary ps) as H2.
    pose proof (energy_level_vocabulary (np.mean rms)) as H3.
    repeat (split; [assumption || reflexivity|]).
    split; [|split; [|split; [|split; [reflexivity | exact Hbars]]]].
    + simpl in H1. destruct H1 as [<- | [<- | [<- | []]]]; discriminate.
    + simpl in H2. destruct H2 as [<- | [<- | [<- | []]]]; discriminate.
    + simpl in H3. destruct H3 as [<- | [<- | [<- | []]]]; discriminate.
Qed.

(** X4.  On the normal path the labels and the scalar values of the result
    tell the same story: the speech rate is "fast" exactly when its value
    exceeds 0.85 and "slow" exactly when it is below 0.65; the energy is
    "low" exactly when its value is at most 0.5, and "high" only with the
    value 1; the pitch variability is "high" exactly when its value exceeds
    0.5. *)
Theorem labels_agree_with_values (lib : Librosa) (audio_data : ndarray)
    (sr : Z) (text_type : option string) (r : EmotionResult) :
  analyze_emotions_try lib audio_data sr text_type = Some r ->
  ~ INR (List.length (to_mono audio_data)) < IZR sr * 0.5 ->
  (speech_rate r = "fast"%string <-> speech_rate_value r > 0.85) /\
  (speech_rate r = "slow"%string <-> speech_rate_value r < 0.65) /\
  (voice_energy r = "high"%string -> voice_energy_value r = 1) /\
  (voice_energy r = "low"%string <-> voice_energy_value r <= 0.5) /\
  (pitch_variability r = "high"%string <-> pitch_variability_value r > 0.5).
Proof.
  intros E Hlong.
  destruct (analyze_emotions_try_fields _ _ _ _ _ E Hlong)
    as (S & rms & env & tempo & beats & ps & raw & dom & _ & _ & _ & _ &
        _ & _ & ->).
  cbn [speech_rate speech_rate_value voice_energy voice_energy_value
       pitch_variability pitch_variability_value].
  unfold _get_speech_rate, _get_energy_level, _get_pitch_variability.
  repeat split.
  all: repeat match goal with
              | |- context [Rgt_dec ?a ?b] => destruct (Rgt_dec a b)
              | |- context [Rlt_dec ?a ?b] => destruct (Rlt_dec a b)
              end.
  all: split_rmin.
  all: intros H; try discriminate H; try reflexivity; try lra.
Qed.

Lemma labels_agree_with_values_witness :
  exists r,
    analyze_emotions_try (stub_librosa [] 150) (Arr1 (repeat 0.5 8000))
      16000 None = Some r /\
    (speech_rate r = "fast"%string <-> speech_rate_value r > 0.85).
Proof.
  destruct (analyze_emotions_try_returns (stub_librosa [] 150)
              (Arr1 (repeat 0.5 8000)) 16000 None
              [[1]; [1]] [0.2] [0] (150, [])
              [(100, 1); (140, 1); (500, 0.05)]
              clip_8000_not_short eq_refl eq_refl eq_refl eq_refl eq_refl)
    as [r E].
  { discriminate. }
  exists r. split; [exact E|].
  exact (proj1 (labels_agree_with_values _ _ _ _ r E clip_8000_not_short)).
Defined.

(** X5.  When the RMS frames and the tempo librosa returns are not
    negative, the five scalar values of the result lie between 0 and 1,
    whatever the clip. *)
Theorem scalar_values_in_unit_interval (lib : Librosa) (audio_data : ndarray)
    (sr : Z) (text_type : option string) :
  (forall S v, rms_of_spectrum lib S = Some v -> Forall (fun e => 0 <= e) v) ->
  (forall env rate tempo beats,
     beat_track lib env rate = Some (tempo, beats) -> 0 <= tempo) ->
  let r := analyze_emotions lib audio_data sr text_type in
  0 <= speech_rate_value r <= 1 /\
  0 < pitch_variability_value r <= 1 /\
  0 <= voice_energy_value r <= 1 /\
  speech_pauses_value r = 0.5 /\
  rhythm_stability_value r = 0.5.
Proof.
  intros Hrms Htempo. cbv zeta.
  destruct (analyze_emotions_paths lib audio_data sr text_type)
    as [-> | (r & -> & E & Hlong)].
  - cbn. repeat split; lra.
  - destruct (analyze_emotions_try_fields _ _ _ _ _ E Hlong)
      as (S & rms & env & tempo & beats & ps & raw & dom & _ & HS & _ & Hb &
          _ & _ & ->).
    cbn [speech_rate_value voice_energy_value pitch_variability_value
         speech_pauses_value rhythm_stability_value].
    pose proof (Htempo _ _ _ _ Hb) as Ht.
    pose proof (np_mean_nonneg rms (Hrms _ _ HS)) as He.
    destruct (Rgt_dec ps 0); split_rmin; repeat split; lra.
Qed.

Lemma scalar_values_in_unit_interval_witness :
  let r := analyze_emotions (stub_librosa [] 150) (Arr1 (repeat 0.5 8000))
             16000 None in
  0 <= speech_rate_value r <= 1 /\
  0 < pitch_variability_value r <= 1 /\
  0 <= voice_energy_value r <= 1 /\
  speech_pauses_value r = 0.5 /\
  rhythm_stability_value r = 0.5.
Proof.
  apply (scalar_values_in_unit_interval (stub_librosa [] 150)).
  - cbn. intros S v [= <-]. apply Forall_cons; [lra | apply Forall_nil].
  - cbn. intros env rate tempo beats [= <- _]. lra.
Defined.

(** X6.  With energy and pitch deviation fixed, a faster tempo never
    lowers the raw scores of anxiety and anger, never raises that of
    sadness, and leaves those of joy and of the neutral state as they
    are. *)
Theorem raw_scores_monotone_in_tempo (energy pitch_std tempo1 tempo2 : R) :
  tempo1 <= tempo2 ->
  exists raw1 raw2 x1 x2 a1 a2 s1 s2 j n,
    raw_scores energy pitch_std tempo1 = Some raw1 /\
    raw_scores energy pitch_std tempo2 = Some raw2 /\
    dict_get "ansia" raw1 = Some x1 /\ dict_get "ansia" raw2 = Some x2 /\
    dict_get "rabbia" raw1 = Some a1 /\ dict_get "rabbia" raw2 = Some a2 /\
    dict_get "tristezza" raw1 = Some s1 /\
    dict_get "tristezza" raw2 = Some s2 /\
    dict_get "gioia" raw1 = Some j /\ dict_get "gioia" raw2 = Some j /\
    dict_get "neutrale" raw1 = Some n /\ dict_get "neutrale" raw2 = Some n /\
    x1 <= x2 /\ a1 <= a2 /\ s2 <= s1.
Proof.
  intros Hle. unfold raw_scores.
  destruct (Rgt_dec energy 0.1), (Rgt_dec pitch_std 0),
           (Rgt_dec tempo1 120), (Rgt_dec tempo2 120);
    try lra; cbn; do 10 eexists;
    do 12 (split; [reflexivity|]); split_rmin; repeat split; lra.
Qed.

Lemma raw_scores_monotone_in_tempo_witness :
  exists raw1 raw2 x1 x2,
    raw_scores 0.2 20 110 = Some raw1 /\ raw_scores 0.2 20 150 = Some raw2 /\
    dict_get "ansia" raw1 = Some x1 /\ dict_get "ansia" raw2 = Some x2 /\
    x1 <= x2.
Proof.
  destruct (raw_scores_monotone_in_tempo 0.2 20 110 150 ltac:(lra))
    as (raw1 & raw2 & x1 & x2 & a1 & a2 & s1 & s2 & j & n & H1 & H2 & H3 &
        H4 & _ & _ & _ & _ & _ & _ & _ & _ & Hx & _).
  exists raw1, raw2, x1, x2. auto.
Defined.

Lemma mapM_map {A B : Type} (f : A -> option B) (g : A -> B) (l : list A) :
  (forall x, In x l -> f x = Some (g x)) -> mapM f l = Some (map g l).
Proof.
  induction l as [|x l IH]; intros H; simpl; [reflexivity|].
  rewrite (H x (or_introl eq_refl)). cbn [bind].
  rewrite IH by (intros y Hy; apply H; right; exact Hy). reflexivity.
Qed.

Lemma radar_values_of (a b c : R) (r : EmotionResult) :
  speech_rate_value r = a -> pitch_variability_value r = b ->
  voice_energy_value r = c ->
  speech_pauses_value r = 0.5 -> rhythm_stability_value r = 0.5 ->
  exists m,
    py_max [a; b; c; 0.5; 0.5] = Some m /\ 0.5 <= m /\
    In m [a; b; c; 0.5; 0.5] /\ a <= m /\ b <= m /\ c <= m /\
    ResultsVisualizer.radar_values r =
      Some [a / m; b / m; c / m; 0.5 / m; 0.5 / m; a / m].
Proof.
  intros <- <- <- Hp Hs.
  destruct (py_max_some [speech_rate_value r; pitch_variability_value r;
                         voice_energy_value r; 0.5; 0.5]) as [m Hm];
    [discriminate|].
  exists m. split; [exact Hm|].
  destruct (py_max_spec _ _ Hm) as [Hin Hall].
  inversion Hall as [|? ? Ha Hall1]; subst.
  inversion Hall1 as [|? ? Hb Hall2]; subst.
  inversion Hall2 as [|? ? Hc Hall3]; subst.
  inversion Hall3 as [|? ? Hd _]; subst.
  repeat (split; [assumption|]).
  unfold ResultsVisualizer.radar_values. rewrite Hp, Hs.
  rewrite (mapM_map _ (fun v => v / m)).
  - reflexivity.
  - intros v _. rewrite Hm. cbn [bind]. unfold py_fdiv.
    destruct (Req_dec_T m 0) as [H0 | _]; [lra | reflexivity].
Qed.

(** X7.  The radar chart of the visualizer divides the five scalar values
    of any result of [analyze_emotions] by the greatest of them.  That
    greatest value is at least 0.5, so the division never fails; the six
    plotted values (the first one closes the polygon) are at most 1, and 1
    is among them. *)
Theorem radar_chart_never_divides_by_zero (lib : Librosa)
    (audio_data : ndarray) (sr : Z) (text_type : option string) :
  exists plotted,
    ResultsVisualizer.radar_values
      (analyze_emotions lib audio_data sr text_type) = Some plotted /\
    List.length plotted = 6%nat /\
    Forall (fun v => v <= 1) plotted /\
    In 1 plotted /\
    last plotted 0 = hd 0 plotted.
Proof.
  assert (Hhalf : speech_pauses_value
                    (analyze_emotions lib audio_data sr text_type) = 0.5 /\
                  rhythm_stability_value
                    (analyze_emotions lib audio_data sr text_type) = 0.5).
  { destruct (analyze_emotions_paths lib audio_data sr text_type)
      as [-> | (r & -> & E & Hlong)]; [split; reflexivity|].
    destruct (analyze_emotions_try_fields _ _ _ _ _ E Hlong)
      as (S & rms & env & tempo & beats & ps & raw & dom & _ & _ & _ & _ &
          _ & _ & ->). split; reflexivity. }
  destruct Hhalf as [Hp Hs].
  destruct (radar_values_of _ _ _ _ eq_refl eq_refl eq_refl Hp Hs)
    as (m & _ & Hm & Hin & Ha & Hb & Hc & ->).
  eexists. split; [reflexivity|]. split; [reflexivity|].
  assert (Hpos : 0 < m) by lra.
  assert (Hdiv : forall v, v <= m -> v / m <= 1).
  { intros v Hv. apply Rmult_le_reg_r with (r := m); [exact Hpos|].
    unfold Rdiv. rewrite Rmult_assoc, Rinv_l by lra. lra. }
  assert (Hone : m / m = 1) by (field; lra).
  split; [|split; [|reflexivity]].
  - repeat (apply Forall_cons; [apply Hdiv; lra|]). apply Forall_nil.
  - simpl in Hin. simpl.
    destruct Hin as [<- | [<- | [<- | [<- | [<- | []]]]]]; rewrite Hone; tauto.
Qed.

(** X8.  The application shows its warning about a short recording exactly
    when the emotional engine, called at 16 kHz, leaves at its length check;
    the recording then gets the default result. *)
Theorem warning_matches_length_check (lib : Librosa) (audio_data : list R)
    (text_type : option string) :
  (fst (App.emotional_analysis lib audio_data text_type) = true <->
   INR (List.length (to_mono (Arr1 audio_data))) < IZR 16000 * 0.5) /\
  (fst (App.emotional_analysis lib audio_data text_type) = true ->
   snd (App.emotional_analysis lib audio_data text_type)
   = _get_default_results).
Proof.
  assert (Hiff : fst (App.emotional_analysis lib audio_data text_type) = true
                 <-> INR (List.length (to_mono (Arr1 audio_data)))
                     < IZR 16000 * 0.5).
  { cbn [App.emotional_analysis fst to_mono]. rewrite Z.ltb_lt, INR_IZR_INZ.
    split; intros H.
    - apply IZR_lt in H. lra.
    - apply lt_IZR. lra. }
  split; [exact Hiff|]. intros H. apply Hiff in H.
  cbn [App.emotional_analysis snd].
  unfold analyze_emotions, analyze_emotions_try.
  destruct (Rlt_dec _ _) as [_ | Hn]; [reflexivity | contradiction].
Qed.

(* ------------------------------------------------------------------ *)
(** * Further properties of the health engine *)

Lemma analyze_breathing_rate (lib : Librosa) (y : list R) (sr : Z)
    (age_group : string) (b : Breathing) :
  _analyze_breathing lib y sr age_group = Some b ->
  exists env breath_events,
    onset_strength lib y sr = Some env /\
    onset_detect lib env sr (sr / 2) = Some breath_events /\
    rate b =
      if Rgt_dec (IZR (Z.of_nat (List.length y)) / IZR sr) 0
      then IZR (Z.of_nat (List.length breath_events) * 60)
           / (IZR (Z.of_nat (List.length y)) / IZR sr)
      else 0.
Proof.
  unfold _analyze_breathing. intros H.
  bind_some H env. bind_some H events. bind_some H duration.
  unfold py_truediv in Eduration.
  destruct (sr =? 0)%Z; [discriminate|]. injection Eduration as <-.
  injection H as <-. exists env, events. cbn. auto.
Qed.

(** X9.  Under a positive sample rate the breathing rate is not negative.
    It is 60 times the number of events over the duration of the
    preprocessed clip, and it is 0 exactly when no event was detected or
    that clip is empty. *)
Theorem breathing_rate_nonnegative (lib : Librosa) (audio_data : list R)
    (sr : Z) (age_group : string) (r : HealthResult) :
  (0 < sr)%Z ->
  analyze_health lib audio_data sr age_group = Some r ->
  exists y onset_env breath_events,
    _preprocess_audio lib audio_data sr = Some y /\
    onset_strength lib y sr = Some onset_env /\
    onset_detect lib onset_env sr (sr / 2) = Some breath_events /\
    0 <= rate (breathing r) /\
    (rate (breathing r) = 0 <-> breath_events = [] \/ y = []) /\
    (y <> [] ->
     rate (breathing r) =
       60 * INR (List.length breath_events) * IZR sr / INR (List.length y)).
Proof.
  intros Hsr H. apply analyze_health_parts in H.
  destruct H as (y & Hy & Hb & _).
  apply analyze_breathing_rate in Hb.
  destruct Hb as (env & events & Henv & Hdetect & Hrate).
  exists y, env, events. repeat (split; [assumption|]).
  rewrite Hrate. clear Hrate.
  rewrite mult_IZR, <- !INR_IZR_INZ.
  assert (Hsr' : 0 < IZR sr) by (apply IZR_lt; exact Hsr).
  assert (Hn : 0 <= INR (List.length events)) by apply pos_INR.
  destruct y as [|s y].
  - cbn [List.length INR].
    assert (H0 : 0 / IZR sr = 0) by (unfold Rdiv; apply Rmult_0_l).
    rewrite H0.
    destruct (Rgt_dec 0 0) as [Habs | _]; [lra|].
    split; [lra|]. split; [tauto | congruence].
  - assert (Hlen : 0 < INR (List.length (s :: y)))
      by (apply lt_0_INR; simpl; lia).
    set (len := INR (List.length (s :: y))) in *.
    assert (Hdur : 0 < len / IZR sr) by (apply Rdiv_lt_0_compat; assumption).
    destruct (Rgt_dec (len / IZR sr) 0) as [_ | Hn']; [|lra].
    assert (Heq : INR (List.length events) * 60 / (len / IZR sr)
                  = 60 * INR (List.length events) * IZR sr / len)
      by (field; lra).
    rewrite Heq.
    assert (Hfac : 0 < 60 * IZR sr / len).
    { apply Rdiv_lt_0_compat; lra. }
    assert (Hform : 60 * INR (List.length events) * IZR sr / len
                    = INR (List.length events) * (60 * IZR sr / len))
      by (field; lra).
    split; [|split].
    + rewrite Hform. apply Rmult_le_pos; lra.
    + rewrite Hform. split.
      * intros H0. left.
        apply Rmult_integral in H0. destruct H0 as [H0 | H0]; [|lra].
        destruct events; [reflexivity|].
        exfalso. assert (0 < INR (List.length (z :: events)))
          by (apply lt_0_INR; simpl; lia). lra.
      * intros [-> | Habs]; [|discriminate]. simpl. lra.
    + intros _. reflexivity.
Qed.

Lemma breathing_rate_nonnegative_witness :
  (0 < 16000)%Z /\
  exists r,
    analyze_health (stub_librosa uneven_events 150) [0.5; -0.5] 16000 "adult"
      = Some r /\
    0 <= rate (breathing r).
Proof.
  split; [reflexivity|].
  destruct (analyze_health_returns (stub_librosa uneven_events 150)
              [0.5; -0.5] 16000 "adult") as [r Hr].
  { discriminate. }
  { apply stub_calls_return. discriminate. }
  exists r. split; [exact Hr|].
  destruct (breathing_rate_nonnegative
              (stub_librosa uneven_events 150) [0.5; -0.5] 16000 "adult" r
              eq_refl Hr) as (y & env & events & _ & _ & _ & Hle & _).
  exact Hle.
Defined.

(* ------------------------------------------------------------------ *)
(** ** Evenly spaced events *)

Lemma np_sum_repeat (c : R) (n : nat) : np.sum (repeat c n) = INR n * c.
Proof.
  induction n as [|n IH]; [simpl; lra|].
  cbn [repeat np.sum]. rewrite IH, S_INR. lra.
Qed.

Lemma np_mean_repeat (c : R) (n : nat) : np.mean (repeat c (S n)) = c.
Proof.
  unfold np.mean. rewrite np_sum_repeat, repeat_length.
  assert (0 < INR (S n)) by (apply lt_0_INR; lia). field. lra.
Qed.

Lemma np_std_repeat (c : R) (n : nat) : np.std (repeat c (S n)) = 0.
Proof.
  unfold np.std. rewrite np_mean_repeat, map_repeat.
  replace ((c - c) * (c - c)) with 0 by lra.
  rewrite np_mean_repeat. apply sqrt_0.
Qed.

Lemma diff_int_repeat_length (l : list Z) (d : Z) (n : nat) :
  np.diff_int l = repeat d (S n) -> (1 < List.length l)%nat.
Proof.
  intros H. apply (f_equal (@List.length Z)) in H.
  rewrite diff_int_length, repeat_length in H. lia.
Qed.

(** X10.  With exactly two breathing events there is a single interval,
    whose standard deviation is 0: the regularity is 1, the greatest value
    it can take, whatever the distance between the two events. *)
Theorem two_breathing_events_are_regular (lib : Librosa)
    (audio_data : list R) (sr : Z) (age_group : string) (r : HealthResult)
    (y onset_env : list R) (first second : Z) :
  (0 < sr)%Z ->
  analyze_health lib audio_data sr age_group = Some r ->
  _preprocess_audio lib audio_data sr = Some y ->
  onset_strength lib y sr = Some onset_env ->
  onset_detect lib onset_env sr (sr / 2) = Some [first; second] ->
  regularity (breathing r) = 1.
Proof.
  intros Hsr H Hy Henv Hdetect.
  apply analyze_health_parts in H. destruct H as (y' & Hy' & Hb & _).
  rewrite Hy in Hy'. injection Hy' as <-.
  apply analyze_breathing_parts in Hb.
  destruct Hb as (_ & env & events & Henv' & Hdetect' & ->).
  rewrite Henv in Henv'. injection Henv' as <-.
  rewrite Hdetect in Hdetect'. injection Hdetect' as <-.
  assert (Hd : (0 < second - first)%Z).
  { unfold onset_detect in Hdetect.
    destruct (peak_candidates lib onset_env) as [c|]; [|discriminate].
    cbn [bind] in Hdetect. injection Hdetect as Hevents.
    destruct (wait_filter_spaced (sr / 2) c None) as [Hspaced _].
    rewrite Hevents in Hspaced. cbn [np.diff_int] in Hspaced.
    inversion Hspaced as [|? ? Hd _]; subst.
    assert (0 <= sr / 2)%Z by (apply Z.div_pos; lia). lia. }
  unfold breathing_regularity_of.
  cbn [List.length Nat.ltb Nat.leb np.diff_int map].
  change [IZR (second - first) / IZR sr]
    with (repeat (IZR (second - first) / IZR sr) 1).
  rewrite np_mean_repeat, np_std_repeat.
  assert (0 < IZR (second - first) / IZR sr).
  { apply Rdiv_lt_0_compat; apply IZR_lt; assumption. }
  destruct (Rgt_dec (IZR (second - first) / IZR sr) 0) as [_ | Hn]; [|lra].
  unfold Rdiv. lra.
Qed.

Lemma two_breathing_events_are_regular_witness :
  exists r,
    analyze_health (stub_librosa [0; 100; 9000]%Z 150) [0.5; -0.5] 16000
      "adult" = Some r /\
    regularity (breathing r) = 1.
Proof.
  destruct (analyze_health_returns (stub_librosa [0; 100; 9000]%Z 150)
              [0.5; -0.5] 16000 "adult") as [r Hr].
  { discriminate. }
  { apply stub_calls_return. discriminate. }
  exists r. split; [exact Hr|].
  pose proof Hr as Hparts. apply analyze_health_parts in Hparts.
  destruct Hparts as (y & Hy & _).
  exact (two_breathing_events_are_regular
           (stub_librosa [0; 100; 9000]%Z 150) [0.5; -0.5] 16000 "adult" r
           y [0] 0%Z 9000%Z eq_refl Hr Hy eq_refl eq_refl).
Defined.

(* ------------------------------------------------------------------ *)
(** ** Voice quality *)

Lemma ratio_nonneg (a b : R) : 0 <= a -> 0 <= (if Rgt_dec b 0 then a / b else 0).
Proof.
  intros Ha. destruct (Rgt_dec b 0) as [Hb | _]; [|lra].
  apply Rmult_le_pos; [exact Ha|]. left. apply Rinv_0_lt_compat. lra.
Qed.

Lemma mean_axis0_nonneg (m : list (list R)) :
  Forall (Forall (fun e => 0 <= e)) m ->
  Forall (fun e => 0 <= e) (np.mean_axis0 m).
Proof.
  intros H. unfold np.mean_axis0. destruct m as [|r m]; [constructor|].
  apply Forall_map, Forall_forall. intros j _.
  apply np_mean_nonneg, Forall_map.
  eapply Forall_impl; [|exact H]. cbv beta. intros row Hrow.
  destruct (nth_in_or_default j row 0) as [Hin | ->]; [|lra].
  rewrite Forall_forall in Hrow. apply Hrow, Hin.
Qed.

Lemma select_rows_subset (S rows : list (list R)) (mask : list bool) :
  select_rows S mask = Some rows -> incl rows S.
Proof.
  unfold select_rows. destruct (_ =? _)%nat; [|discriminate].
  intros [= <-] row Hrow.
  apply in_map_iff in Hrow. destruct Hrow as ([row' keep] & <- & Hin).
  apply filter_In in Hin. destruct Hin as [Hin _].
  apply in_combine_l in Hin. exact Hin.
Qed.

Lemma select_rows_none_kept (S rows : list (list R)) (mask : list bool) :
  Forall (fun keep => keep = false) mask ->
  select_rows S mask = Some rows -> rows = [].
Proof.
  unfold select_rows. destruct (_ =? _)%nat; [|discriminate].
  intros Hmask [= <-].
  assert (Hnone : filter snd (combine S mask) = []).
  { revert S. induction Hmask as [|keep mask -> _ IH]; intros S.
    - destruct S; reflexivity.
    - destruct S as [|row S]; [reflexivity|]. cbn. apply IH. }
  rewrite Hnone. reflexivity.
Qed.

(** What [_analyze_voice_quality] computes, with its intermediate values. *)
Lemma analyze_voice_quality_values (lib : Librosa) (y : list R) (sr : Z)
    (q : VoiceQuality) :
  _analyze_voice_quality lib y sr = Some q ->
  exists S noise_rows harmonic_rows jitter shimmer hnr,
    stft_abs lib y = Some S /\
    select_rows S (map (fun f => leb f 2000) (fft_frequencies lib sr))
      = Some harmonic_rows /\
    select_rows S (map negb (map (fun f => leb f 2000)
                                 (fft_frequencies lib sr)))
      = Some noise_rows /\
    0 <= jitter /\ 0 <= shimmer /\
    hnr = (if Rgt_dec (np.mean (np.mean_axis0 noise_rows)) 0
           then np.mean (np.mean_axis0 harmonic_rows)
                / np.mean (np.mean_axis0 noise_rows)
           else 0) /\
    strain q = (jitter + shimmer) / 2 /\
    quality_score q = 1 - np.mean [jitter; shimmer; strain q] /\
    hoarseness q = (if Rlt_dec hnr 1 then 1 - hnr else 0).
Proof.
  unfold _analyze_voice_quality. intros H.
  bind_some H bins. bind_some H pitches_valid. bind_some H v. bind_some H S.
  bind_some H harmonic_rows. bind_some H noise_rows.
  injection H as <-. cbn [strain quality_score hoarseness].
  exists S, noise_rows, harmonic_rows.
  eexists. eexists. eexists.
  split; [reflexivity|]. split; [assumption|]. split; [assumption|].
  split; [|split; [|split; [reflexivity|split; [reflexivity|split; reflexivity]]]].
  - destruct (1 <? _)%nat; [|lra]. apply ratio_nonneg, np_std_nonneg.
  - apply ratio_nonneg, np_std_nonneg.
Qed.

(** X11.  In every record [analyze_health] returns the strain and the
    hoarseness are not negative, and the quality score is at most 1. *)
Theorem voice_quality_one_sided_bounds (lib : Librosa) (audio_data : list R)
    (sr : Z) (age_group : string) (r : HealthResult) :
  analyze_health lib audio_data sr age_group = Some r ->
  0 <= strain (voice_quality r) /\
  quality_score (voice_quality r) <= 1 /\
  0 <= hoarseness (voice_quality r).
Proof.
  intros H. apply analyze_health_parts in H.
  destruct H as (y & _ & _ & Hq & _).
  apply analyze_voice_quality_values in Hq.
  destruct Hq as (S & nr & hr & jitter & shimmer & hnr & _ & _ & _ & Hj & Hs &
                  _ & Hstrain & Hquality & Hhoarse).
  rewrite Hquality, Hhoarse, Hstrain, quality_plus_strain.
  split; [lra|]. split; [lra|].
  destruct (Rlt_dec hnr 1); lra.
Qed.

Lemma voice_quality_one_sided_bounds_witness :
  exists r,
    analyze_health (stub_librosa [] 150) [0.5; -0.5] 16000 "adult" = Some r /\
    0 <= strain (voice_quality r).
Proof.
  destruct (analyze_health_returns (stub_librosa [] 150)
              [0.5; -0.5] 16000 "adult") as [r Hr].
  { discriminate. }
  { apply stub_calls_return. discriminate. }
  exists r. split; [exact Hr|].
  exact (proj1 (voice_quality_one_sided_bounds _ _ _ _ r Hr)).
Defined.

(** X12.  When the magnitudes of the spectrum are not negative, the
    hoarseness lies between 0 and 1.  When no frequency bin lies above
    2000 Hz the noise band is empty, the ratio is taken to be 0 and the
    hoarseness is 1. *)
Theorem hoarseness_in_unit_interval (lib : Librosa) (audio_data : list R)
    (sr : Z) (age_group : string) (r : HealthResult) :
  (forall y S, stft_abs lib y = Some S ->
               Forall (Forall (fun e => 0 <= e)) S) ->
  analyze_health lib audio_data sr age_group = Some r ->
  0 <= hoarseness (voice_quality r) <= 1 /\
  (Forall (fun f => f <= 2000) (fft_frequencies lib sr) ->
   hoarseness (voice_quality r) = 1).
Proof.
  intros Hpos H. apply analyze_health_parts in H.
  destruct H as (y & _ & _ & Hq & _).
  apply analyze_voice_quality_values in Hq.
  destruct Hq as (S & nr & hr & jitter & shimmer & hnr & HS & Hhr & Hnr & _ &
                  _ & Hhnr & _ & _ & ->).
  assert (Hh : 0 <= hnr).
  { rewrite Hhnr. apply ratio_nonneg, np_mean_nonneg, mean_axis0_nonneg.
    specialize (Hpos y S HS). rewrite Forall_forall in Hpos.
    apply Forall_forall. intros row Hrow.
    apply Hpos, (select_rows_subset _ _ _ Hhr), Hrow. }
  split.
  - destruct (Rlt_dec hnr 1); lra.
  - intros Hlow.
    assert (Hmask : Forall (fun keep => keep = false)
              (map negb (map (fun f => leb f 2000) (fft_frequencies lib sr)))).
    { apply Forall_map, Forall_map.
      eapply Forall_impl; [|exact Hlow]. cbv beta. intros f Hf.
      unfold leb. destruct (Rle_dec f 2000); [reflexivity | lra]. }
    assert (Hempty : nr = []) by exact (select_rows_none_kept _ _ _ Hmask Hnr).
    subst nr.
    assert (Hzero : hnr = 0).
    { rewrite Hhnr. cbn [np.mean_axis0].
      assert (H0 : np.mean [] = 0)
        by (unfold np.mean, Rdiv; simpl; apply Rmult_0_l).
      rewrite H0. destruct (Rgt_dec 0 0); [lra | reflexivity]. }
    rewrite Hzero. destruct (Rlt_dec 0 1); lra.
Qed.

Lemma hoarseness_in_unit_interval_witness :
  exists r,
    analyze_health (stub_librosa [] 150) [0.5; -0.5] 16000 "adult" = Some r /\
    0 <= hoarseness (voice_quality r) <= 1.
Proof.
  destruct (analyze_health_returns (stub_librosa [] 150)
              [0.5; -0.5] 16000 "adult") as [r Hr].
  { discriminate. }
  { apply stub_calls_return. discriminate. }
  exists r. split; [exact Hr|].
  refine (proj1 (hoarseness_in_unit_interval (stub_librosa [] 150)
                   [0.5; -0.5] 16000 "adult" r _ Hr)).
  cbn. intros y S [= <-].
  repeat (apply Forall_cons; [apply Forall_cons; [lra | apply Forall_nil]|]).
  apply Forall_nil.
Defined.

(* ------------------------------------------------------------------ *)
(** ** Speech rhythm *)

Lemma analyze_speech_rhythm_values (lib : Librosa) (y : list R) (sr : Z)
    (s : SpeechRhythm) :
  _analyze_speech_rhythm lib y sr = Some s ->
  exists env tempo beats,
    onset_strength lib y sr = Some env /\
    beat_track lib env sr = Some (tempo, beats) /\
    fluency s =
      (if (1 <? List.length beats)%nat then
         if Rgt_dec (np.mean (map IZR (np.diff_int beats))) 0
         then 1 - np.std (map IZR (np.diff_int beats))
                  / np.mean (map IZR (np.diff_int beats))
         else 0
       else 0) /\
    stability s = (fluency s + (1 - Rabs (tempo - 120) / 120)) / 2.
Proof.
  unfold _analyze_speech_rhythm. intros H. bind_some H env.
  destruct (beat_track lib env sr) as [[tempo beats]|] eqn:Hb;
    cbn [bind] in H; [|discriminate].
  injection H as <-. exists env, tempo, beats. cbn. auto.
Qed.

(** X13.  In every record [analyze_health] returns, fluency and stability
    are at most 1; the stability is the mean of the fluency and of
    [1 - |tempo - 120| / 120]; with fewer than two beats the fluency is 0. *)
Theorem rhythm_fluency_and_stability (lib : Librosa) (audio_data : list R)
    (sr : Z) (age_group : string) (r : HealthResult) :
  analyze_health lib audio_data sr age_group = Some r ->
  exists y env tempo beats,
    _preprocess_audio lib audio_data sr = Some y /\
    onset_strength lib y sr = Some env /\
    beat_track lib env sr = Some (tempo, beats) /\
    fluency (speech_rhythm r) <= 1 /\
    stability (speech_rhythm r) <= 1 /\
    stability (speech_rhythm r) =
      (fluency (speech_rhythm r) + (1 - Rabs (tempo - 120) / 120)) / 2 /\
    ((List.length beats <= 1)%nat -> fluency (speech_rhythm r) = 0).
Proof.
  intros H. apply analyze_health_parts in H.
  destruct H as (y & Hy & _ & _ & _ & Hs).
  apply analyze_speech_rhythm_values in Hs.
  destruct Hs as (env & tempo & beats & Henv & Hb & Hf & Hst).
  exists y, env, tempo, beats. repeat (split; [assumption|]).
  assert (Hfl : fluency (speech_rhythm r) <= 1).
  { rewrite Hf. destruct (1 <? _)%nat; [|lra].
    destruct (Rgt_dec _ 0) as [Hm | _]; [|lra].
    assert (0 <= np.std (map IZR (np.diff_int beats))
                 / np.mean (map IZR (np.diff_int beats))).
    { apply Rmult_le_pos; [apply np_std_nonneg|].
      left. apply Rinv_0_lt_compat. lra. }
    lra. }
  split; [exact Hfl|]. split; [|split; [exact Hst|]].
  - rewrite Hst. pose proof (Rabs_pos (tempo - 120)).
    assert (0 <= Rabs (tempo - 120) / 120) by (apply Rmult_le_pos; lra).
    lra.
  - intros Hlen. rewrite Hf.
    destruct (Nat.ltb_spec 1 (List.length beats)); [lia | reflexivity].
Qed.

Lemma rhythm_fluency_and_stability_witness :
  exists r,
    analyze_health (stub_librosa [] 150) [0.5; -0.5] 16000 "adult" = Some r /\
    fluency (speech_rhythm r) <= 1 /\ stability (speech_rhythm r) <= 1.
Proof.
  destruct (analyze_health_returns (stub_librosa [] 150)
              [0.5; -0.5] 16000 "adult") as [r Hr].
  { discriminate. }
  { apply stub_calls_return. discriminate. }
  exists r. split; [exact Hr|].
  destruct (rhythm_fluency_and_stability _ _ _ _ r Hr)
    as (y & env & tempo & beats & _ & _ & _ & Hf & Hs & _).
  split; assumption.
Defined.

(** X14.  With evenly spaced beats (all differences of consecutive beat
    frames equal and positive) the fluency is 1, and the stability is
    [1 - |tempo - 120| / 240]: it reaches 1 at 120 beats per minute. *)
Theorem evenly_spaced_beats_are_fluent (lib : Librosa) (audio_data : list R)
    (sr : Z) (age_group : string) (r : HealthResult)
    (y env : list R) (tempo : R) (beats : list Z) (d : Z) (n : nat) :
  analyze_health lib audio_data sr age_group = Some r ->
  _preprocess_audio lib audio_data sr = Some y ->
  onset_strength lib y sr = Some env ->
  beat_track lib env sr = Some (tempo, beats) ->
  np.diff_int beats = repeat d (S n) ->
  (0 < d)%Z ->
  fluency (speech_rhythm r) = 1 /\
  stability (speech_rhythm r) = 1 - Rabs (tempo - 120) / 240 /\
  (tempo = 120 -> stability (speech_rhythm r) = 1).
Proof.
  intros H Hy Henv Hb Heven Hd.
  apply analyze_health_parts in H.
  destruct H as (y' & Hy' & _ & _ & _ & Hs).
  rewrite Hy in Hy'. injection Hy' as <-.
  apply analyze_speech_rhythm_values in Hs.
  destruct Hs as (env' & tempo' & beats' & Henv' & Hb' & Hf & Hst).
  rewrite Henv in Henv'. injection Henv' as <-.
  rewrite Hb in Hb'. injection Hb' as <- <-.
  assert (Hfl : fluency (speech_rhythm r) = 1).
  { rewrite Hf.
    pose proof (diff_int_repeat_length _ _ _ Heven) as Hlen.
    apply Nat.ltb_lt in Hlen. rewrite Hlen, Heven, map_repeat.
    rewrite np_mean_repeat, np_std_repeat.
    assert (0 < IZR d) by (apply IZR_lt; exact Hd).
    destruct (Rgt_dec (IZR d) 0) as [_ | Hn]; [|lra]. unfold Rdiv. lra. }
  split; [exact Hfl|]. rewrite Hst, Hfl. split; [field|].
  intros ->. replace (120 - 120) with 0 by lra. rewrite Rabs_R0. field.
Qed.

Lemma evenly_spaced_beats_are_fluent_witness :
  exists r,
    analyze_health (steady_librosa 120 [10; 26; 42]%Z) [0.5; -0.5] 16000
      "adult" = Some r /\
    fluency (speech_rhythm r) = 1 /\ stability (speech_rhythm r) = 1.
Proof.
  destruct (analyze_health_returns (steady_librosa 120 [10; 26; 42]%Z)
              [0.5; -0.5] 16000 "adult") as [r Hr].
  { discriminate. }
  { exists [0.5; -0.5], [0], [[1]; [1]]. cbn.
    repeat split; discriminate. }
  exists r. split; [exact Hr|].
  destruct (evenly_spaced_beats_are_fluent
              (steady_librosa 120 [10; 26; 42]%Z) [0.5; -0.5] 16000 "adult" r
              [0.5; -0.5] [0] 120 [10; 26; 42]%Z 16%Z 1%nat
              Hr eq_refl eq_refl eq_refl eq_refl eq_refl)
    as (Hf & _ & Hs).
  split; [exact Hf | exact (Hs eq_refl)].
Defined.

(* ------------------------------------------------------------------ *)
(** ** Segments and the fatigue timeline *)

Lemma filter_none {A : Type} (f : A -> bool) (l : list A) :
  (forall x, In x l -> f x = false) -> filter f l = [].
Proof.
  induction l as [|x l IH]; intros H; [reflexivity|]. simpl.
  rewrite (H x (or_introl eq_refl)). apply IH. intros y Hy. apply H. right.
  exact Hy.
Qed.

Lemma py_slice_length {A : Type} (l : list A) (i step : Z) :
  (0 <= i)%Z -> (0 < step)%Z ->
  List.length (py_slice l i (i + step)) =
    Nat.min (Z.to_nat step) (List.length l - Z.to_nat i).
Proof.
  intros Hi Hstep. unfold py_slice.
  replace (i + step - i)%Z with step by lia.
  rewrite length_firstn, length_skipn. reflexivity.
Qed.

(** The segments of a clip at a positive sample rate. *)
Lemma segments_of_spec (y : list R) (sr : Z) :
  (0 < sr)%Z ->
  exists segments,
    segments_of y sr = Some segments /\
    Forall (fun segment =>
              (sr <= Z.of_nat (List.length segment) <= 3 * sr)%Z) segments /\
    (segments = [] <-> (Z.of_nat (List.length y) < sr)%Z).
Proof.
  intros Hsr. unfold segments_of, py_range.
  destruct (Z.eqb_spec (sr * 3) 0) as [H0 | _]; [lia|].
  destruct (Z.ltb_spec 0 (sr * 3)) as [_ | Hneg]; [|lia].
  cbn [bind]. eexists. split; [reflexivity|].
  set (step := (sr * 3)%Z).
  set (n := Z.to_nat ((Z.of_nat (List.length y) - 0 + step - 1) / step)).
  assert (Hstep : (0 < step)%Z) by (unfold step; lia).
  assert (Hslice : forall k,
            List.length (py_slice y (0 + Z.of_nat k * step)
                                  (0 + Z.of_nat k * step + step)) =
            Nat.min (Z.to_nat step)
                    (List.length y - Z.to_nat (0 + Z.of_nat k * step))).
  { intros k. apply py_slice_length; nia. }
  split; [|split].
  - apply Forall_forall. intros segment Hin.
    apply filter_In in Hin. destruct Hin as [Hin Hlong].
    apply Z.leb_le in Hlong. split; [exact Hlong|].
    apply in_map_iff in Hin. destruct Hin as (i & <- & Hi).
    apply in_map_iff in Hi. destruct Hi as (k & <- & _).
    rewrite Hslice. unfold step. lia.
  - intros Hnil.
    destruct (Z.lt_ge_cases (Z.of_nat (List.length y)) sr) as [Hlt | Hge];
      [exact Hlt | exfalso].
    assert (Hn : (1 <= n)%nat).
    { unfold n.
      assert (1 <= (Z.of_nat (List.length y) - 0 + step - 1) / step)%Z
        by (apply Z.div_le_lower_bound; lia).
      lia. }
    destruct n as [|n']; [lia|].
    cbn [seq map filter] in Hnil.
    change (0 + Z.of_nat 0 * step)%Z with 0%Z in Hnil.
    assert (Hfirst : (sr <=? Z.of_nat (List.length (py_slice y 0 (0 + step))))%Z
                     = true).
    { apply Z.leb_le. specialize (Hslice 0%nat).
      change (0 + Z.of_nat 0 * step)%Z with 0%Z in Hslice.
      rewrite Hslice. unfold step. lia. }
    rewrite Hfirst in Hnil. discriminate Hnil.
  - intros Hshort. apply filter_none. intros segment Hin.
    apply in_map_iff in Hin. destruct Hin as (i & <- & Hi).
    apply in_map_iff in Hi. destruct Hi as (k & <- & _).
    apply Z.leb_gt. rewrite Hslice. lia.
Qed.

Lemma normalize_trend_length (trend : list R) :
  List.length (normalize_trend trend) = List.length trend.
Proof.
  unfold normalize_trend. destruct (py_max trend); [apply length_map | reflexivity].
Qed.

Lemma mapM_length {A B : Type} (f : A -> option B) (l : list A) (l' : list B) :
  mapM f l = Some l' -> List.length l' = List.length l.
Proof.
  intros H. apply mapM_Forall2 in H.
  induction H; simpl; congruence.
Qed.

(** X15.  At a positive sample rate every segment of the fatigue analysis
    holds between one and three seconds of samples, and there is none
    exactly when the preprocessed clip is shorter than a second; the record
    then has the timeline [[0]] and the score 0. *)
Theorem fatigue_segments (lib : Librosa) (audio_data : list R)
    (sr : Z) (age_group : string) (r : HealthResult) :
  (0 < sr)%Z ->
  analyze_health lib audio_data sr age_group = Some r ->
  exists y segments,
    _preprocess_audio lib audio_data sr = Some y /\
    segments_of y sr = Some segments /\
    Forall (fun segment =>
              (sr <= Z.of_nat (List.length segment) <= 3 * sr)%Z) segments /\
    (segments = [] <-> (Z.of_nat (List.length y) < sr)%Z) /\
    ((Z.of_nat (List.length y) < sr)%Z ->
     timeline (fatigue r) = [0] /\ fatigue_score (fatigue r) = 0).
Proof.
  intros Hsr H. apply analyze_health_parts in H.
  destruct H as (y & Hy & _ & _ & Hf & _).
  destruct (segments_of_spec y sr Hsr) as (segments & Hseg & Hlen & Hnone).
  apply analyze_fatigue_parts in Hf.
  destruct Hf as (segments' & Hseg' & Hdefault & _).
  rewrite Hseg in Hseg'. injection Hseg' as <-.
  exists y, segments. repeat (split; [assumption|]).
  intros Hshort. apply Hdefault, Hnone, Hshort.
Qed.

Lemma fatigue_segments_witness :
  (0 < 16000)%Z /\
  exists r,
    analyze_health (stub_librosa [] 150) [0.5; -0.5] 16000 "adult" = Some r /\
    timeline (fatigue r) = [0] /\ fatigue_score (fatigue r) = 0.
Proof.
  split; [reflexivity|].
  destruct (analyze_health_returns (stub_librosa [] 150)
              [0.5; -0.5] 16000 "adult") as [r Hr].
  { discriminate. }
  { apply stub_calls_return. discriminate. }
  exists r. split; [exact Hr|].
  destruct (fatigue_segments (stub_librosa [] 150) [0.5; -0.5] 16000 "adult" r
              eq_refl Hr) as (y & segments & Hy & _ & _ & _ & Hshort).
  apply Hshort.
  unfold _preprocess_audio in Hy. cbn [stub_librosa normalize trim] in Hy.
  unfold librosa_normalize in Hy.
  destruct (np.max (map Rabs [0.5; -0.5])) as [top|]; cbn [bind] in Hy;
    [|discriminate].
  injection Hy as <-. destruct (Rgt_dec top 0); cbn; lia.
Defined.

(** X16.  The timeline [analyze_health] returns is never empty: it has one
    value per segment, and one value when there is no segment.  So the
    energy gauge of the visualizer always shows the last value of the
    timeline and never its fallback 0.5. *)
Theorem fatigue_timeline_never_empty (lib : Librosa) (audio_data : list R)
    (sr : Z) (age_group : string) (r : HealthResult) :
  analyze_health lib audio_data sr age_group = Some r ->
  exists y segments,
    _preprocess_audio lib audio_data sr = Some y /\
    segments_of y sr = Some segments /\
    List.length (timeline (fatigue r)) = Nat.max 1 (List.length segments) /\
    timeline (fatigue r) <> [] /\
    ResultsVisualizer.energy_level r = last (timeline (fatigue r)) 0.
Proof.
  intros H. apply analyze_health_parts in H.
  destruct H as (y & Hy & _ & _ & Hf & _).
  apply analyze_fatigue_parts in Hf.
  destruct Hf as (segments & Hseg & Hnone & Hsome).
  exists y, segments. split; [exact Hy|]. split; [exact Hseg|].
  assert (Hlen : List.length (timeline (fatigue r))
                 = Nat.max 1 (List.length segments)).
  { destruct segments as [|s segments].
    - destruct (Hnone eq_refl) as [-> _]. reflexivity.
    - destruct (Hsome ltac:(discriminate)) as (trend & Htrend & _ & -> & _).
      rewrite normalize_trend_length, (mapM_length _ _ _ Htrend). simpl. lia. }
  split; [exact Hlen|].
  assert (Hne : timeline (fatigue r) <> []).
  { intros Hnil. rewrite Hnil in Hlen. cbn [List.length] in Hlen. lia. }
  split; [exact Hne|].
  unfold ResultsVisualizer.energy_level.
  destruct (timeline (fatigue r)); [congruence | reflexivity].
Qed.

Lemma fatigue_timeline_never_empty_witness :
  exists r,
    analyze_health (stub_librosa [] 150) [0.5; -0.5] 16000 "adult" = Some r /\
    timeline (fatigue r) <> [].
Proof.
  destruct (analyze_health_returns (stub_librosa [] 150)
              [0.5; -0.5] 16000 "adult") as [r Hr].
  { discriminate. }
  { apply stub_calls_return. discriminate. }
  exists r. split; [exact Hr|].
  destruct (fatigue_timeline_never_empty _ _ _ _ r Hr)
    as (y & segments & _ & _ & _ & Hne & _).
  exact Hne.
Defined.

Lemma last_nonneg (l : list R) :
  Forall (fun v => 0 <= v) l -> 0 <= last l 0.
Proof.
  intros H. destruct l as [|x l]; [simpl; lra|].
  rewrite Forall_forall in H. apply H.
  destruct (exists_last (l := x :: l) ltac:(discriminate)) as (l' & a & ->).
  rewrite last_last. apply in_or_app. right. left. reflexivity.
Qed.

(** The fatigue record, under non-negative RMS frames: the timeline,
    its bounds, and the score computed from it. *)
Lemma analyze_fatigue_values (lib : Librosa) (y : list R) (sr : Z)
    (f : Fatigue) :
  (forall y v, rms lib y = Some v -> Forall (fun e => 0 <= e) v) ->
  _analyze_fatigue lib y sr = Some f ->
  timeline f <> [] /\
  Forall (fun v => 0 <= v <= 1) (timeline f) /\
  fatigue_score f = fatigue_score_of (timeline f) /\
  (In 1 (timeline f) \/ Forall (fun v => v = 0) (timeline f)).
Proof.
  intros Hrms Hf. apply analyze_fatigue_parts in Hf.
  destruct Hf as (segments & _ & Hnone & Hsome).
  destruct segments as [|s segments].
  - destruct (Hnone eq_refl) as [Ht Hs]. rewrite Ht, Hs.
    split; [discriminate|]. split; [|split].
    + apply Forall_cons; [lra | apply Forall_nil].
    + unfold fatigue_score_of. destruct (Rgt_dec 0 0); [lra | reflexivity].
    + right. apply Forall_cons; [reflexivity | apply Forall_nil].
  - destruct (Hsome ltac:(discriminate)) as (trend & Htrend & Hne & Ht & Hs).
    assert (Hpos : Forall (fun e => 0 <= e) trend).
    { apply mapM_Forall2 in Htrend. clear - Htrend Hrms.
      induction Htrend as [|seg e ss es He _ IH]; constructor; [|exact IH].
      destruct (rms lib seg) as [v|] eqn:Hv; cbn [bind] in He; [|discriminate].
      injection He as <-. apply np_mean_nonneg, (Hrms seg v Hv). }
    destruct (normalize_trend_spec trend Hne Hpos)
      as (m & Hm & Hmap & Hunit & Hzero).
    rewrite Hs, Ht. split; [|split; [exact Hunit|split; [reflexivity|]]].
    + intros Hnil. apply (f_equal (@List.length R)) in Hnil.
      rewrite normalize_trend_length in Hnil.
      destruct trend; [congruence | discriminate].
    + destruct (Rle_lt_dec m 0) as [Hle | Hgt]; [right; apply Hzero, Hle|].
      left. rewrite Hmap. apply py_max_spec in Hm. destruct Hm as [Hin _].
      apply in_map_iff. exists m. split; [|exact Hin].
      destruct (Rgt_dec m 0); [field; lra | lra].
Qed.

(** X17.  When the RMS frames are not negative, the fatigue score is at
    most 1, and it is 0 when the timeline has a single value (a clip with
    at most one segment).  In the timeline the loudest segment has the
    value 1, unless all values are 0. *)
Theorem fatigue_score_at_most_one (lib : Librosa) (audio_data : list R)
    (sr : Z) (age_group : string) (r : HealthResult) :
  (forall y v, rms lib y = Some v -> Forall (fun e => 0 <= e) v) ->
  analyze_health lib audio_data sr age_group = Some r ->
  fatigue_score (fatigue r) <= 1 /\
  (List.length (timeline (fatigue r)) = 1%nat ->
   fatigue_score (fatigue r) = 0) /\
  (In 1 (timeline (fatigue r)) \/
   Forall (fun v => v = 0) (timeline (fatigue r))).
Proof.
  intros Hrms H. apply analyze_health_parts in H.
  destruct H as (y & _ & _ & _ & Hf & _).
  destruct (analyze_fatigue_values lib y sr _ Hrms Hf)
    as (Hne & Hunit & Hs & Hone).
  split; [|split; [|exact Hone]].
  - rewrite Hs. unfold fatigue_score_of.
    destruct (timeline (fatigue r)) as [|first rest] eqn:Et; [lra|].
    destruct (Rgt_dec first 0) as [Hgt | _]; [|lra].
    assert (0 <= last (first :: rest) 0).
    { apply last_nonneg. eapply Forall_impl; [|exact Hunit].
      cbv beta. intros; lra. }
    assert (0 <= last (first :: rest) 0 / first).
    { apply Rmult_le_pos; [assumption|]. left. apply Rinv_0_lt_compat. lra. }
    lra.
  - intros Hlen. rewrite Hs. unfold fatigue_score_of.
    destruct (timeline (fatigue r)) as [|first [|? ?]]; try discriminate Hlen.
    destruct (Rgt_dec first 0) as [Hgt | _]; [|reflexivity].
    cbn [last]. field. lra.
Qed.

Lemma fatigue_score_at_most_one_witness :
  exists r,
    analyze_health (stub_librosa [] 150) [1; -1; 1; 0.5; 0.5; -0.5] 1 "adult"
      = Some r /\
    fatigue_score (fatigue r) <= 1.
Proof.
  destruct (analyze_health_returns (stub_librosa [] 150)
              [1; -1; 1; 0.5; 0.5; -0.5] 1 "adult") as [r Hr].
  { discriminate. }
  { apply stub_calls_return. discriminate. }
  exists r. split; [exact Hr|].
  exact (proj1 (fatigue_score_at_most_one (stub_librosa [] 150)
                  [1; -1; 1; 0.5; 0.5; -0.5] 1 "adult" r
                  (stub_rms_nonneg [] 150) Hr)).
Defined.

(* ------------------------------------------------------------------ *)
(** * The visualizer on the records of the health engine *)

(** X18.  The health report reads the regularity of the breathing under
    the key [irregularity], which the breathing dictionary does not have:
    whatever the record, the report says "respiro molto regolare". *)
Theorem regularity_line_is_constant (results : HealthResult) :
  lookup (breathing_items (breathing results)) "irregularity" = None /\
  ResultsVisualizer.regularity_line results = "respiro molto regolare"%string.
Proof.
  split; [reflexivity|].
  unfold ResultsVisualizer.regularity_line. cbn [breathing_items get String.eqb
    Ascii.eqb Bool.eqb].
  unfold ResultsVisualizer._interpret_breathing_regularity.
  destruct (Rlt_dec 0 0.2); [reflexivity | lra].
Qed.

(** X19.  The gauge of the breathing rate (scale 10 to 30) always gets a
    colour.  A rate the report calls "nella norma" (12 to 20) is drawn in
    the colour of moderate or of severe concern, and the colour of health
    is used exactly for rates of 26 and more, which the report calls
    "elevata, possibile tachipnea". *)
Theorem breathing_gauge_colour (rate : R) :
  exists colour,
    ResultsVisualizer.gauge_color rate 10 30 = Some colour /\
    (ResultsVisualizer._interpret_breathing_rate rate = "nella norma"%string ->
     colour = "#FFA500"%string \/ colour = "#FF4500"%string) /\
    (colour = "#90EE90"%string <-> 26 <= rate) /\
    (colour = "#90EE90"%string ->
     ResultsVisualizer._interpret_breathing_rate rate
     = "elevata, possibile tachipnea"%string).
Proof.
  unfold ResultsVisualizer.gauge_color, py_fdiv.
  destruct (Req_dec_T (30 - 10) 0) as [H0 | _]; [lra|]. cbn [bind].
  unfold ResultsVisualizer._get_health_color,
         ResultsVisualizer._interpret_breathing_rate.
  destruct (Rge_dec ((rate - 10) / (30 - 10)) 0.8);
    [|destruct (Rge_dec ((rate - 10) / (30 - 10)) 0.6);
      [|destruct (Rge_dec ((rate - 10) / (30 - 10)) 0.4)]];
    cbn; eexists; (split; [reflexivity|]);
    destruct (Rlt_dec rate 12); try destruct (Rle_dec rate 20);
    repeat split; intros; try discriminate; try lra; auto.
Qed.

Lemma analyze_health_quality_strain (lib : Librosa) (audio_data : list R)
    (sr : Z) (age_group : string) (r : HealthResult) :
  analyze_health lib audio_data sr age_group = Some r ->
  quality_score (voice_quality r) = 1 - strain (voice_quality r).
Proof.
  intros H. apply analyze_health_parts in H.
  destruct H as (y & _ & _ & Hq & _).
  apply analyze_voice_quality_parts in Hq.
  destruct Hq as (_ & _ & _ & jitter & shimmer & Hs & Hq).
  rewrite Hq, Hs. apply quality_plus_strain.
Qed.

(** X20.  On a record of [analyze_health] the visualizer calls the voice
    quality normal exactly when the strain is at most 0.4 and the
    hoarseness at most 0.3.  The quality score is below 0.5 exactly when
    the strain is above 0.5, so a compromised quality is never reported
    without the vocal effort: the two messages that would do so do not
    occur. *)
Theorem voice_quality_message (lib : Librosa) (audio_data : list R)
    (sr : Z) (age_group : string) (r : HealthResult) :
  analyze_health lib audio_data sr age_group = Some r ->
  let message :=
    ResultsVisualizer._interpret_voice_quality
      (voice_quality_items (voice_quality r)) in
  (message = "Qualità vocale nella norma"%string <->
   strain (voice_quality r) <= 0.4 /\ hoarseness (voice_quality r) <= 0.3) /\
  (quality_score (voice_quality r) < 0.5 <-> strain (voice_quality r) > 0.5) /\
  message <>
    "Rilevate le seguenti problematiche: qualità vocale compromessa"%string /\
  message <>
    ("Rilevate le seguenti problematiche: " ++
     "qualità vocale compromessa, presenza di raucedine")%string.
Proof.
  intros H. pose proof (analyze_health_quality_strain _ _ _ _ _ H) as Hq.
  cbv zeta. unfold ResultsVisualizer._interpret_voice_quality.
  cbn [voice_quality_items get String.eqb Ascii.eqb Bool.eqb].
  rewrite Hq.
  destruct (Rlt_dec (1 - strain (voice_quality r)) 0.5),
           (Rgt_dec (hoarseness (voice_quality r)) 0.3),
           (Rgt_dec (strain (voice_quality r)) 0.4);
    cbn; repeat split; intros; try discriminate; try lra.
Qed.

Lemma voice_quality_message_witness :
  exists r,
    analyze_health (stub_librosa [] 150) [0.5; -0.5] 16000 "adult" = Some r /\
    (quality_score (voice_quality r) < 0.5 <-> strain (voice_quality r) > 0.5).
Proof.
  destruct (analyze_health_returns (stub_librosa [] 150)
              [0.5; -0.5] 16000 "adult") as [r Hr].
  { discriminate. }
  { apply stub_calls_return. discriminate. }
  exists r. split; [exact Hr|].
  exact (proj1 (proj2 (voice_quality_message _ _ _ _ r Hr))).
Defined.

(** X21.  The list of health recommendations is never empty and has at
    most three entries; it is the single line about keeping good habits
    exactly when the breathing rate is at most 20, the hoarseness at most
    0.3 and the fatigue score at most 0.3. *)
Theorem health_recommendations_never_empty (results : HealthResult) :
  let recommendations :=
    ResultsVisualizer._generate_health_recommendations results in
  recommendations <> [] /\
  (List.length recommendations <= 3)%nat /\
  (recommendations = ["- Mantieni le tue buone abitudini vocali"%string] <->
   rate (breathing results) <= 20 /\
   hoarseness (voice_quality results) <= 0.3 /\
   fatigue_score (fatigue results) <= 0.3).
Proof.
  cbv zeta. unfold ResultsVisualizer._generate_health_recommendations.
  cbn [voice_quality_items get String.eqb Ascii.eqb Bool.eqb].
  destruct (Rgt_dec (rate (breathing results)) 20),
           (Rgt_dec (hoarseness (voice_quality results)) 0.3),
           (Rgt_dec (fatigue_score (fatigue results)) 0.3);
    cbn; repeat split; intros; try discriminate; try lia; try lra.
Qed.

(** X22.  For a clip with at most one segment the visualizer's fatigue
    message is always "Livello di fatica contenuto", with no remark on the
    trend: the score is 0 and the timeline has a single value. *)
Theorem fatigue_message_of_short_clip (lib : Librosa) (audio_data : list R)
    (sr : Z) (age_group : string) (r : HealthResult) :
  analyze_health lib audio_data sr age_group = Some r ->
  exists y segments,
    _preprocess_audio lib audio_data sr = Some y /\
    segments_of y sr = Some segments /\
    ((List.length segments <= 1)%nat ->
     ResultsVisualizer._interpret_fatigue (fatigue r)
     = "Livello di fatica contenuto"%string).
Proof.
  intros H. apply analyze_health_parts in H.
  destruct H as (y & Hy & _ & _ & Hf & _).
  apply analyze_fatigue_parts in Hf.
  destruct Hf as (segments & Hseg & Hnone & Hsome).
  exists y, segments. split; [exact Hy|]. split; [exact Hseg|].
  intros Hlen.
  assert (Hone : exists v, timeline (fatigue r) = [v] /\
                           fatigue_score (fatigue r) = 0).
  { destruct segments as [|s segments].
    - destruct (Hnone eq_refl) as [-> ->]. eauto.
    - destruct (Hsome ltac:(discriminate)) as (trend & Htrend & _ & Ht & Hs).
      pose proof (mapM_length _ _ _ Htrend) as Hl.
      pose proof (normalize_trend_length trend) as Hl'.
      rewrite <- Ht in Hl'.
      destruct (timeline (fatigue r)) as [|v [|? ?]] eqn:Et;
        simpl in Hl', Hl, Hlen; try lia.
      exists v. split; [reflexivity|]. rewrite Hs. unfold fatigue_score_of.
      destruct (Rgt_dec v 0); [cbn [last]; field; lra | reflexivity]. }
  destruct Hone as (v & Ht & Hs).
  unfold ResultsVisualizer._interpret_fatigue. rewrite Ht, Hs.
  cbn [List.length Nat.ltb Nat.leb].
  destruct (Rlt_dec 0 0.3); [reflexivity | lra].
Qed.

Lemma fatigue_message_of_short_clip_witness :
  exists r,
    analyze_health (stub_librosa [] 150) [0.5; -0.5] 16000 "adult" = Some r /\
    exists y segments,
      _preprocess_audio (stub_librosa [] 150) [0.5; -0.5] 16000 = Some y /\
      segments_of y 16000 = Some segments.
Proof.
  destruct (analyze_health_returns (stub_librosa [] 150)
              [0.5; -0.5] 16000 "adult") as [r Hr].
  { discriminate. }
  { apply stub_calls_return. discriminate. }
  exists r. split; [exact Hr|].
  destruct (fatigue_message_of_short_clip _ _ _ _ r Hr)
    as (y & segments & Hy & Hseg & _).
  exists y, segments. split; assumption.
Defined.

(* ------------------------------------------------------------------ *)
(** * The conversion of the recording *)

Lemma mean_of_pairs_spec (lo hi : R) (n : nat) (samples : list R) :
  (List.length samples <= n)%nat ->
  match App.mean_of_pairs samples with
  | Some out =>
      (2 * List.length out = List.length samples)%nat /\
      (Forall (fun s => lo <= s < hi) samples ->
       Forall (fun s => lo <= s < hi) out)
  | None => Nat.odd (List.length samples) = true
  end.
Proof.
  revert samples. induction n as [|n IH]; intros samples Hlen.
  - destruct samples; [|simpl in Hlen; lia]. simpl. split; [reflexivity | auto].
  - destruct samples as [|a [|b rest]].
    + simpl. split; [reflexivity | auto].
    + reflexivity.
    + cbn [App.mean_of_pairs].
      specialize (IH rest ltac:(simpl in Hlen; lia)).
      destruct (App.mean_of_pairs rest) as [out|]; cbn [bind].
      * destruct IH as [Hl Hr]. split; [simpl; lia|].
        intros Hall. inversion Hall as [|? ? Ha Hall1]; subst.
        inversion Hall1 as [|? ? Hb Hrest]; subst.
        apply Forall_cons; [|apply Hr, Hrest].
        unfold np.mean. simpl. lra.
      * change (List.length (a :: b :: rest)) with (S (S (List.length rest))).
        rewrite Nat.odd_succ_succ. exact IH.
Qed.

Lemma scaled_in_range (k : R) (samples : list R) :
  0 < k ->
  Forall (fun s => - k <= s < k) samples ->
  Forall (fun v => -1 <= v < 1) (map (fun s => s / k) samples).
Proof.
  intros Hk H. apply Forall_map. eapply Forall_impl; [|exact H].
  cbv beta. intros s [Hlo Hhi].
  assert (Hinv : 0 < / k) by (apply Rinv_0_lt_compat, Hk).
  split.
  - apply Rmult_le_reg_r with (r := k); [exact Hk|].
    unfold Rdiv. rewrite Rmult_assoc, Rinv_l by lra. lra.
  - apply Rmult_lt_reg_r with (r := k); [exact Hk|].
    unfold Rdiv. rewrite Rmult_assoc, Rinv_l by lra. lra.
Qed.

(** X23.  For a decoded recording with samples of 1, 2 or 4 bytes, each
    within the signed range of that width, and a rounding to single
    precision that keeps the order and leaves -1 and 1 as they are,
    [convert_audio_to_numpy] fails only on a stereo recording with an odd
    number of samples.  Otherwise every value it returns lies between -1
    and 1, both included; a stereo recording yields half as many values as
    it has samples, any other one as many. *)
Theorem converted_samples_in_range {Bytes : Type}
    (from_wav : Bytes -> option App.AudioSegment) (float32 : R -> R)
    (audio_bytes : Bytes) (audio : App.AudioSegment) :
  (forall x x', x <= x' -> float32 x <= float32 x') ->
  float32 (-1) = -1 ->
  float32 1 = 1 ->
  from_wav audio_bytes = Some audio ->
  In (App.sample_width audio) [1; 2; 4]%Z ->
  Forall (fun s => (- 2 ^ (8 * App.sample_width audio - 1) <= s
                    < 2 ^ (8 * App.sample_width audio - 1))%Z)
         (App.get_array_of_samples audio) ->
  match App.convert_audio_to_numpy from_wav float32 audio_bytes with
  | Some samples =>
      Forall (fun v => -1 <= v <= 1) samples /\
      (if (App.channels audio =? 2)%Z
       then (2 * List.length samples
             = List.length (App.get_array_of_samples audio))%nat
       else List.length samples
            = List.length (App.get_array_of_samples audio))
  | None =>
      App.channels audio = 2%Z /\
      Nat.odd (List.length (App.get_array_of_samples audio)) = true
  end.
Proof.
  intros Hmono Hlow Hhigh Hwav Hwidth Hrange.
  unfold App.convert_audio_to_numpy. rewrite Hwav. cbn [bind].
  set (k := IZR (2 ^ (8 * App.sample_width audio - 1))).
  assert (Hk : 0 < k).
  { unfold k. apply IZR_lt.
    simpl in Hwidth. destruct Hwidth as [<- | [<- | [<- | []]]]; reflexivity. }
  assert (Hreal : Forall (fun s => - k <= s < k)
                         (map IZR (App.get_array_of_samples audio))).
  { apply Forall_map. eapply Forall_impl; [|exact Hrange]. cbv beta.
    intros s [Hlo Hhi]. unfold k. rewrite <- opp_IZR.
    split; [apply IZR_le, Hlo | apply IZR_lt, Hhi]. }
  assert (Hscale : forall samples,
    (if (App.sample_width audio =? 1)%Z
     then map (fun s => s / IZR (2 ^ 7)) samples
     else if (App.sample_width audio =? 2)%Z
          then map (fun s => s / IZR (2 ^ 15)) samples
          else if (App.sample_width audio =? 4)%Z
               then map (fun s => s / IZR (2 ^ 31)) samples
               else samples)
    = map (fun s => s / k) samples).
  { intros samples. unfold k. simpl in Hwidth.
    destruct Hwidth as [<- | [<- | [<- | []]]]; reflexivity. }
  assert (Hround : forall samples,
    Forall (fun s => - k <= s < k) samples ->
    Forall (fun v => -1 <= v <= 1)
           (map float32 (map (fun s => s / k) samples))).
  { intros samples Hs. apply Forall_map.
    pose proof (scaled_in_range k samples Hk Hs) as Hunit.
    eapply Forall_impl; [|exact Hunit]. cbv beta. intros v [Hlo Hhi].
    split.
    - rewrite <- Hlow. apply Hmono. lra.
    - rewrite <- Hhigh. apply Hmono. lra. }
  destruct (App.channels audio =? 2)%Z eqn:Hch.
  - pose proof (mean_of_pairs_spec (- k) k _
                  (map IZR (App.get_array_of_samples audio)) (le_n _)) as Hp.
    destruct (App.mean_of_pairs (map IZR (App.get_array_of_samples audio)))
      as [out|]; cbn [bind].
    + destruct Hp as [Hl Hr]. rewrite Hscale. split.
      * apply Hround, Hr, Hreal.
      * rewrite !length_map in *. exact Hl.
    + rewrite length_map in Hp. split; [apply Z.eqb_eq, Hch | exact Hp].
  - cbn [bind]. rewrite Hscale. split.
    + apply Hround, Hreal.
    + rewrite !length_map. reflexivity.
Qed.

Lemma converted_samples_in_range_witness :
  let audio := {| App.channels := 2; App.sample_width := 2;
                  App.get_array_of_samples := [32767; -32768; 0; 100]%Z |} in
  match App.convert_audio_to_numpy (fun _ : unit => Some audio)
          (fun x => x) tt with
  | Some samples =>
      Forall (fun v => -1 <= v <= 1) samples /\ List.length samples = 2%nat
  | None => False
  end.
Proof.
  cbv zeta.
  pose proof (converted_samples_in_range
                (fun _ : unit =>
                   Some {| App.channels := 2; App.sample_width := 2;
                           App.get_array_of_samples :=
                             [32767; -32768; 0; 100]%Z |})
                (fun x => x) tt _
                (fun x x' Hx => Hx) eq_refl eq_refl eq_refl) as H.
  cbn [App.sample_width App.get_array_of_samples App.channels] in H.
  specialize (H ltac:(simpl; tauto)).
  specialize (H ltac:(repeat (apply Forall_cons; [split; reflexivity || discriminate|]);
                      apply Forall_nil)).
  destruct (App.convert_audio_to_numpy _ _ tt) as [samples|].
  - destruct H as [Hr Hl]. split; [exact Hr|]. simpl in Hl. lia.
  - destruct H as [_ H]. discriminate H.
Defined.
